(** * The Alephium helper client (pkg/dia/helpers/alephium-helper/client.go)

    A shallow embedding of the REST client: the gateway [callAPI], pool
    discovery, token pair and token metadata resolution and the event
    filter.  Go's [(value, error)] results are pairs with an optional
    error, a nil pointer is [None], a run-time panic is an outcome of its
    own, and the network, the clock and the logger are an explicit world:
    a queue of answers still to come and the trace of effects so far. *)

From Stdlib Require Import String Ascii ZArith List Bool Lia DecimalString.
Import ListNotations.

Local Open Scope string_scope.
Local Open Scope Z_scope.

(** ** Errors *)

(** The two sentinel causes of a [*strconv.NumError]. *)
Inductive NumErrCause : Type :=
| ErrSyntax
| ErrRange.

(** Go's [error] values, told apart by their dynamic type. *)
Inductive error : Type :=
| errorString (msg : string)      (* errors.New(msg) *)
| NumError (func num : string) (cause : NumErrCause)  (* strconv *)
| urlError (msg : string)         (* returned by http.Client.Do *)
| dumpError (msg : string)        (* returned by httputil.Dump... *)
| jsonError (msg : string)        (* returned by json.Unmarshal *)
| closeError (msg : string)       (* returned by Body.Close *)
| codecError (msg : string).      (* returned by the package's codec *)

Definition errors_New (msg : string) : error := errorString msg.

(** A fallible library call whose value is only read when it succeeded. *)
Inductive Result (A : Type) : Type :=
| Ok (a : A)
| Err (e : error).
Arguments Ok {A} a.
Arguments Err {A} e.

(** ** Data *)

(** Modelled from the spec: the declaration of [dia.Asset] is not under
    src/; its fields are address, symbol, name, decimals (uint8, kept in
    [0, 256)) and blockchain. *)
Record Asset : Type := mkAsset {
  Address : string;
  Symbol : string;
  Name : string;
  Decimals : Z;
  Blockchain : string
}.

(** [dia.Asset{}]. *)
Definition zeroAsset : Asset := mkAsset "" "" "" 0 "".

(** Modelled from the spec: the request and response shapes of the
    package's types file are not under src/; the fields are the ones
    client.go reads and writes. *)
Record CallContractRequest : Type := mkCallContractRequest {
  Group : Z;
  reqAddress : string;
  MethodIndex : Z
}.

Record Field : Type := mkField {
  fieldType : string;
  Value : string
}.

Record CallContractResult : Type := mkCallContractResult {
  resultType : string;
  Error : option string;
  Returns : list Field
}.

Record MulticallContractResponse : Type := mkMulticallContractResponse {
  Results : list CallContractResult
}.

Record SubContractResponse : Type := mkSubContractResponse {
  SubContracts : list string
}.

Record OutputField : Type := mkOutputField {
  ResponseResult : string;
  outField : Field
}.

Record OutputResult : Type := mkOutputResult {
  outAddress : string;
  outResults : list OutputField
}.

Record ContractEvent : Type := mkContractEvent {
  EventIndex : Z;
  Fields : list Field
}.

(** ** Constants *)

Definition BackendURL : string := "https://backend.mainnet.alephium.org".
Definition NodeURL : string := "https://node.mainnet.alephium.org".
Definition AYINPairContractAddress : string :=
  "vyrkJHG49TXss6pGAz2dVxq5o7mBXNNXAV18nAeqVT1R".

Definition SymbolMethod : nat := 0.
Definition NameMethod : nat := 1.
Definition DecimalsMethod : nat := 2.
Definition TokenPairMethod : Z := 7.
Definition SwapEventIndex : Z := 2.

Definition DefaultSleepBetweenContractCalls : Z := 300.
Definition DefaultSwapContractsLimit : Z := 100.

(** The native token has no contract behind it; the literal leaves
    [Blockchain] at its zero value. *)
Definition ALPHNativeToken : Asset :=
  {| Address := "tgx7VNFoP9DJiFMFgXXtafQZkUvyEdDHT9ryamHJYrjq";
     Symbol := "ALPH";
     Name := "Alephium";
     Decimals := 18;
     Blockchain := "" |}.

(** ** HTTP requests and responses *)

(** The body handed to [http.NewRequest]: [http.NoBody] or the value that
    [json.Marshal] was applied to. *)
Inductive Payload : Type :=
| NoBody
| JSONCall (call : CallContractRequest)
| JSONCalls (calls : list CallContractRequest).

Record Request : Type := mkRequest {
  Method : string;
  URL : string;
  reqBody : Payload
}.

Definition http_NewRequest (method url : string) (body : Payload) : Request :=
  mkRequest method url body.

(** What the server sent back: the status, the bytes that reading the
    body yields and the error the reading ends with, what writing the
    response out for a dump gives, and what closing the network body
    returns. *)
Record Response : Type := mkResponseRead {
  StatusCode : Z;
  Body : string;
  bodyRead : option error;
  respDump : Result string;
  bodyClose : option error
}.

(** An answer whose body is read to its end. *)
Definition mkResponse (status : Z) (body : string) (dump : Result string)
    (close : option error) : Response :=
  mkResponseRead status body None dump close.

Definition http_StatusOK : Z := 200.

(** ** The world: answers to come and effects so far *)

Inductive Event : Type :=
| Sent (r : Request)            (* HTTPClient.Do *)
| Printed (dump : string)       (* log.Printf / logger.Printf of a dump *)
| LoggedError (msg : string)    (* logger ... .Error(msg) *)
| Slept (d : Z)                 (* time.Sleep *)
| Closed.                       (* the network body is closed *)

Record World : Type := mkWorld {
  pending : list (Result Response);
  trace : list Event
}.

Inductive Outcome (A : Type) : Type :=
| Returned (a : A)
| Panicked (msg : string).
Arguments Returned {A} a.
Arguments Panicked {A} msg.

Definition M (A : Type) : Type := World -> Outcome A * World.

Definition ret {A} (a : A) : M A := fun w => (Returned a, w).

Definition bind {A B} (m : M A) (k : A -> M B) : M B :=
  fun w =>
    match m w with
    | (Returned a, w') => k a w'
    | (Panicked msg, w') => (Panicked msg, w')
    end.

Definition panic {A} (msg : string) : M A := fun w => (Panicked msg, w).

Declare Scope go_scope.
Delimit Scope go_scope with go.
Notation "x <- m ;; k" := (bind m (fun x => k))
  (at level 61, m at next level, right associativity) : go_scope.
Notation "' pat <- m ;; k" := (bind m (fun x => match x with pat => k end))
  (at level 61, pat pattern, m at next level, right associativity) : go_scope.
Notation "m ;; k" := (bind m (fun _ => k))
  (at level 61, right associativity) : go_scope.
Local Open Scope go_scope.

Definition emit (e : Event) : M unit :=
  fun w => (Returned tt, mkWorld (pending w) (trace w ++ [e])%list).

(** [l[i]]: a slice index out of range panics. *)
Definition index {A} (l : list A) (i : nat) : M A :=
  match nth_error l i with
  | Some x => ret x
  | None => panic "index out of range"
  end.

(** [c.HTTPClient.Do(request)]: the request goes out and the next answer
    comes in; when none is left the client's timeout fires. *)
Definition HTTPClient_Do (request : Request) : M (Result Response) :=
  fun w =>
    let w' := (trace w ++ [Sent request])%list in
    match pending w with
    | [] => (Returned (Err (urlError "Client.Timeout exceeded")), mkWorld [] w')
    | r :: rest => (Returned r, mkWorld rest w')
    end.

(** ** Library functions *)

(** [fmt.Sprintf("%d", n)]. *)
Definition itoa (n : Z) : string := NilZero.string_of_int (Z.to_int n).

Definition maxUint64 : Z := 2 ^ 64 - 1.

(** The value of a byte as a digit in [strconv.ParseUint]: decimal digits,
    then letters of either case from ten on. *)
Definition digitVal (c : ascii) : option Z :=
  let n := Z.of_nat (nat_of_ascii c) in
  if (48 <=? n) && (n <=? 57) then Some (n - 48)
  else if (97 <=? n) && (n <=? 122) then Some (n - 97 + 10)
  else if (65 <=? n) && (n <=? 90) then Some (n - 65 + 10)
  else None.

(** The digit loop of [strconv.ParseUint] for an explicit base in [2, 36]
    (no prefix, no underscores), on uint64 accumulators. *)
Fixpoint parseDigits (s0 s : string) (base maxVal cutoff n : Z)
  : Z * option error :=
  match s with
  | EmptyString => (n, None)
  | String c rest =>
      match digitVal c with
      | None => (0, Some (NumError "ParseUint" s0 ErrSyntax))
      | Some d =>
          if base <=? d then (0, Some (NumError "ParseUint" s0 ErrSyntax))
          else if cutoff <=? n then (maxVal, Some (NumError "ParseUint" s0 ErrRange))
          else
            let n' := (n * base) mod 2 ^ 64 in
            let n1 := (n' + d) mod 2 ^ 64 in
            if (n1 <? n') || (maxVal <? n1)
            then (maxVal, Some (NumError "ParseUint" s0 ErrRange))
            else parseDigits s0 rest base maxVal cutoff n1
      end
  end.

(** [strconv.ParseUint(s, base, bitSize)] for [2 <= base <= 36] and
    [0 < bitSize <= 64]. *)
Definition strconv_ParseUint (s : string) (base bitSize : Z) : Z * option error :=
  match s with
  | EmptyString => (0, Some (NumError "ParseUint" s ErrSyntax))
  | _ => parseDigits s s base (2 ^ bitSize - 1) (maxUint64 / base + 1) 0
  end.

(** The conversion [uint8(n)] of an unsigned integer. *)
Definition uint8 (n : Z) : Z := n mod 256.

(** ** What the client is linked against *)

(** The package's codec.  Its functions are called by client.go and live
    in a file that is not under src/; the client is modelled for any
    implementation of them. *)
Class Codec : Type := {
  DecodeHex : string -> Result string;
  groupOfAddress : string -> Result Z;
  AddressFromTokenId : string -> Result string
}.

(** [httputil.DumpRequestOut(request, true)]. *)
Class HTTPUtil : Type := {
  DumpRequestOut : Request -> Result string
}.

(** [json.Unmarshal(data, &target)] at a target of type [T]: the target
    as the decoder leaves it, and the decoder's error. *)
Class JSONTarget (T : Type) : Type := {
  json_Unmarshal : string -> T -> T * option error
}.

(** ** The client *)

Record AlephiumClient : Type := mkAlephiumClient {
  Debug : bool;
  sleepBetweenCalls : Z
}.

Definition NewAlephiumClient (sleep : Z) (debug : bool) : AlephiumClient :=
  {| Debug := debug; sleepBetweenCalls := sleep |}.

Definition waiting (c : AlephiumClient) : M unit :=
  emit (Slept (sleepBetweenCalls c)).

Definition Body_Close (resp : Response) : M (option error) :=
  emit Closed ;; ret (bodyClose resp).

(** [httputil.DumpResponse(resp, true)]: it reads the body to its end,
    closes it and puts a buffer with a no-op close in its place, then
    writes the response out.  A failed read leaves the body open; a failed
    close or a failed write comes after the body was closed. *)
Definition DumpResponse (resp : Response) : M (Result string) :=
  match bodyRead resp with
  | Some e => ret (Err e)
  | None =>
      emit Closed ;;
      match bodyClose resp with
      | Some e => ret (Err e)
      | None => ret (respDump resp)
      end
  end.

Section Gateway.
Context {HU : HTTPUtil}.
Context {T : Type} {JT : JSONTarget T}.

(** [callAPI] from [io.ReadAll] on: the status check, the decoding, the
    sleep and the close.  [drained] says that a dump has replaced the body
    by its buffer, whose close does nothing and returns nil. *)
Definition finishCall (c : AlephiumClient) (resp : Response) (drained : bool)
    (target : T) : M (T * option error) :=
  let data := Body resp in
  if negb (StatusCode resp =? http_StatusOK) then
    let err := errors_New "not 200 http response code from api" in
    emit (LoggedError "failed to call api") ;;
    ret (target, Some err)
  else
    let '(target', jerr) := json_Unmarshal data target in
    match jerr with
    | Some e => ret (target', Some e)
    | None =>
        waiting c ;;
        cerr <- (if drained then ret None else Body_Close resp) ;;
        ret (target', cerr)
    end.

(** The part of [callAPI] that follows a response: the dump in debug
    mode, then the rest of the call. *)
Definition handleResponse (c : AlephiumClient) (resp : Response) (target : T)
  : M (T * option error) :=
  if Debug c then
    dumped <- DumpResponse resp ;;
    match dumped with
    | Err e => ret (target, Some e)
    | Ok dump => emit (Printed dump) ;; finishCall c resp true target
    end
  else finishCall c resp false target.

Definition callAPI (c : AlephiumClient) (request : Request) (target : T)
  : M (T * option error) :=
  match (if Debug c then
           match DumpRequestOut request with
           | Err e => Err e
           | Ok dump => Ok (Some dump)
           end
         else Ok None) with
  | Err e => ret (target, Some e)
  | Ok dumped =>
      match dumped with Some dump => emit (Printed dump) | None => ret tt end ;;
      r <- HTTPClient_Do request ;;
      match r with
      | Err e => ret (target, Some e)
      | Ok resp => handleResponse c resp target
      end
  end.
End Gateway.

Section Client.
Context {CD : Codec} {HU : HTTPUtil}.
Context {JSub : JSONTarget SubContractResponse}.
Context {JCall : JSONTarget CallContractResult}.
Context {JMulti : JSONTarget MulticallContractResponse}.

Definition subContractsURL (swapContractsLimit : Z) (page : string) : string :=
  BackendURL ++ "/contracts/" ++ AYINPairContractAddress
    ++ "/sub-contracts?limit=" ++ itoa swapContractsLimit ++ "&page=" ++ page.

(** The [range] loop that appends page 2's contracts one by one. *)
Definition appendContracts (page1 : SubContractResponse) (more : list string)
  : SubContractResponse :=
  fold_left
    (fun acc contract => mkSubContractResponse (SubContracts acc ++ [contract])%list)
    more page1.

Definition GetSwapPairsContractAddresses (c : AlephiumClient)
    (swapContractsLimit : Z) : M (SubContractResponse * option error) :=
  let contractResponsePage1 := mkSubContractResponse [] in
  let contractResponsePage2 := mkSubContractResponse [] in
  let request := http_NewRequest "GET" (subContractsURL swapContractsLimit "1") NoBody in
  '(contractResponsePage1, err) <- callAPI c request contractResponsePage1 ;;
  match err with
  | Some e => ret (contractResponsePage1, Some e)
  | None =>
      let request := http_NewRequest "GET" (subContractsURL swapContractsLimit "2") NoBody in
      '(contractResponsePage2, err) <- callAPI c request contractResponsePage2 ;;
      match err with
      | Some e => ret (contractResponsePage1, Some e)
      | None =>
          ret (appendContracts contractResponsePage1
                 (SubContracts contractResponsePage2), None)
      end
  end.

(** [json.Marshal] of these structs and [http.NewRequest] on a constant
    URL cannot fail, so the two [Fatalf] branches are not reachable. *)
Definition GetTokenPairAddresses (c : AlephiumClient) (contractAddress : string)
  : M (list string * option error) :=
  match groupOfAddress contractAddress with
  | Err e => ret ([], Some e)
  | Ok group =>
      let inputData := mkCallContractRequest group contractAddress TokenPairMethod in
      let url := NodeURL ++ "/contracts/call-contract" in
      let req := http_NewRequest "POST" url (JSONCall inputData) in
      '(response, err) <- callAPI c req (mkCallContractResult "" None []) ;;
      match err with
      | Some e => emit (LoggedError "failed to callApi") ;; ret ([], Some e)
      | None =>
          match Error response with
          | Some msg =>
              emit (LoggedError "failed to get token pair") ;;
              ret ([], Some (errors_New msg))
          | None =>
              r0 <- index (Returns response) 0 ;;
              match AddressFromTokenId (Value r0) with
              | Err e =>
                  emit (LoggedError "failed to calculate address1") ;;
                  ret ([], Some e)
              | Ok address1 =>
                  r1 <- index (Returns response) 1 ;;
                  match AddressFromTokenId (Value r1) with
                  | Err e =>
                      emit (LoggedError "failed to calculate address2") ;;
                      ret ([], Some e)
                  | Ok address2 => ret ([address1; address2], None)
                  end
              end
          end
      end
  end.

Definition decodeMulticallRequestToAssets (contractAddress blockchain : string)
    (resp : OutputResult) : M (Asset * option error) :=
  let asset := zeroAsset in
  f0 <- index (outResults resp) SymbolMethod ;;
  match DecodeHex (Value (outField f0)) with
  | Err e => emit (LoggedError "failed to decode symbol") ;; ret (asset, Some e)
  | Ok symbol =>
      let asset := mkAsset (Address asset) symbol (Name asset)
                           (Decimals asset) (Blockchain asset) in
      f1 <- index (outResults resp) NameMethod ;;
      match DecodeHex (Value (outField f1)) with
      | Err e => emit (LoggedError "failed to decode name") ;; ret (asset, Some e)
      | Ok name =>
          let asset := mkAsset (Address asset) (Symbol asset) name
                               (Decimals asset) (Blockchain asset) in
          f2 <- index (outResults resp) DecimalsMethod ;;
          let '(decimals, perr) := strconv_ParseUint (Value (outField f2)) 10 32 in
          match perr with
          | Some e =>
              emit (LoggedError "failed to decode decimals") ;; ret (asset, Some e)
          | None =>
              ret (mkAsset contractAddress (Symbol asset) (Name asset)
                           (uint8 decimals) blockchain, None)
          end
      end
  end.

(** The loop that builds the three calls; it stops at the first failure
    of [groupOfAddress]. *)
Fixpoint buildCalls (contractAddress : string) (methods : list Z)
    (inputData : list CallContractRequest) : Result (list CallContractRequest) :=
  match methods with
  | [] => Ok inputData
  | i :: rest =>
      match groupOfAddress contractAddress with
      | Err e => Err e
      | Ok group =>
          buildCalls contractAddress rest
            (inputData ++ [mkCallContractRequest group contractAddress i])%list
      end
  end.

(** The loop over the sub-results: the first one with an error ends the
    call, every other one contributes its first return value. *)
Fixpoint collectResults (rows : list CallContractResult) (acc : list OutputField)
  : M (Result (list OutputField)) :=
  match rows with
  | [] => ret (Ok acc)
  | row :: rest =>
      match Error row with
      | Some msg =>
          emit (LoggedError "failed to get token info") ;;
          ret (Err (errors_New msg))
      | None =>
          r0 <- index (Returns row) 0 ;;
          collectResults rest (acc ++ [mkOutputField (resultType row) r0])%list
      end
  end.

Definition GetTokenInfoForContractDecoded (c : AlephiumClient)
    (contractAddress blockchain : string) : M (option Asset * option error) :=
  if String.eqb contractAddress (Address ALPHNativeToken) then
    ret (Some ALPHNativeToken, None)
  else
    match buildCalls contractAddress [0; 1; 2] [] with
    | Err e => ret (None, Some e)
    | Ok inputData =>
        let url := NodeURL ++ "/contracts/multicall-contract" in
        let req := http_NewRequest "POST" url (JSONCalls inputData) in
        '(response, err) <- callAPI c req (mkMulticallContractResponse []) ;;
        match err with
        | Some e => emit (LoggedError "failed to callApi") ;; ret (None, Some e)
        | None =>
            collected <- collectResults (Results response) [] ;;
            match collected with
            | Err e => ret (None, Some e)
            | Ok results =>
                let output := mkOutputResult contractAddress results in
                '(asset, err) <- decodeMulticallRequestToAssets
                                   contractAddress blockchain output ;;
                ret (Some asset, err)
            end
        end
    end.
End Client.

(** [FilterEvents]: the loop appends the events whose index is the
    filter's, in the order met. *)
Definition FilterEvents (allEvents : list ContractEvent) (filter : Z)
  : list ContractEvent :=
  fold_left
    (fun events event =>
       if EventIndex event =? filter then (events ++ [event])%list else events)
    allEvents [].

(** The request for one page of sub-contracts and the request for the
    token pair of a pool, as the client builds them. *)
Definition pageRequest (swapContractsLimit : Z) (page : string) : Request :=
  http_NewRequest "GET" (subContractsURL swapContractsLimit page) NoBody.

Definition tokenPairRequest (group : Z) (contractAddress : string) : Request :=
  http_NewRequest "POST" (NodeURL ++ "/contracts/call-contract")
    (JSONCall (mkCallContractRequest group contractAddress TokenPairMethod)).

Definition multicallRequest (group : Z) (contractAddress : string) : Request :=
  http_NewRequest "POST" (NodeURL ++ "/contracts/multicall-contract")
    (JSONCalls (map (mkCallContractRequest group contractAddress) [0; 1; 2])).

(** The two conversions of a token pair, in the order the client makes
    them. *)
Definition convertPair `{Codec} (t1 t2 : Field) : list string * option error :=
  match AddressFromTokenId (Value t1) with
  | Err e => ([], Some e)
  | Ok address1 =>
      match AddressFromTokenId (Value t2) with
      | Err e => ([], Some e)
      | Ok address2 => ([address1; address2], None)
      end
  end.

(** Page [page] of the sub-contracts of the root pool registry, at most
    [pageSize] of them, as the backend's API has it: written out from the
    API's description, not from the client's URL builder. *)
Definition subContractsPage (pageSize page : Z) : Request :=
  mkRequest "GET"
    ("https://backend.mainnet.alephium.org/contracts/"
       ++ "vyrkJHG49TXss6pGAz2dVxq5o7mBXNNXAV18nAeqVT1R"
       ++ "/sub-contracts?limit=" ++ itoa pageSize ++ "&page=" ++ itoa page)
    NoBody.

(** The zero values the client declares as decoding targets. *)
Definition noSubContracts : SubContractResponse := mkSubContractResponse [].
Definition noCallResult : CallContractResult := mkCallContractResult "" None [].
Definition noMulticall : MulticallContractResponse := mkMulticallContractResponse [].

(** ** Observations on a world *)

(** The requests that went out, oldest first. *)
Fixpoint requestsSent (t : list Event) : list Request :=
  match t with
  | [] => []
  | Sent r :: t' => r :: requestsSent t'
  | _ :: t' => requestsSent t'
  end.

(** The durations slept, oldest first. *)
Fixpoint sleeps (t : list Event) : list Z :=
  match t with
  | [] => []
  | Slept d :: t' => d :: sleeps t'
  | _ :: t' => sleeps t'
  end.

Definition isOk {A} (r : Result A) : bool :=
  match r with Ok _ => true | Err _ => false end.

(** What [httputil.DumpResponse] returns for an answer: the error of the
    read, else the error of the close, else what the writing gives. *)
Definition dumpResponseResult (resp : Response) : Result string :=
  match bodyRead resp with
  | Some e => Err e
  | None =>
      match bodyClose resp with
      | Some e => Err e
      | None => respDump resp
      end
  end.

(** With diagnostics on, both dumps of an exchange succeed. *)
Definition dumpsFine `{HTTPUtil} (c : AlephiumClient) (request : Request)
    (resp : Response) : bool :=
  negb (Debug c)
  || (isOk (DumpRequestOut request) && isOk (dumpResponseResult resp)).

Definition isNone {A} (o : option A) : bool :=
  match o with None => true | Some _ => false end.

(** What [callAPI] returns for a 200 answer whose dumps went fine: the
    target as decoded, and the decoder's error or else the close's. *)
Definition decoded {T} `{JSONTarget T} (resp : Response) (target : T)
  : T * option error :=
  let '(target', jerr) := json_Unmarshal (Body resp) target in
  (target', match jerr with Some e => Some e | None => bodyClose resp end).

(** The exchange reaches the sleep: the dumps went fine, the status is
    200 and the body decodes into the target. *)
Definition reachesSleep {T} `{HTTPUtil} `{JSONTarget T} (c : AlephiumClient)
    (request : Request) (resp : Response) (target : T) : bool :=
  dumpsFine c request resp
  && (StatusCode resp =? http_StatusOK)
  && isNone (snd (json_Unmarshal (Body resp) target)).

(** The numeric value of a string of decimal digits read after [n]. *)
Fixpoint decimalValue (s : string) (n : Z) : Z :=
  match s with
  | EmptyString => n
  | String c rest => decimalValue rest (n * 10 + (Z.of_nat (nat_of_ascii c) - 48))
  end.

Definition isDecimalDigit (c : ascii) : bool :=
  let n := Z.of_nat (nat_of_ascii c) in (48 <=? n) && (n <=? 57).

Fixpoint allDigits (s : string) : bool :=
  match s with
  | EmptyString => true
  | String c rest => isDecimalDigit c && allDigits rest
  end.

(** An event list in which every event has the index [k]. *)
Definition allIndexed (k : Z) (evs : list ContractEvent) : Prop :=
  Forall (fun e => EventIndex e = k) evs.

(** [sub] is [l] with some elements left out, the others in order. *)
Inductive Subsequence {A} : list A -> list A -> Prop :=
| sub_nil : Subsequence [] []
| sub_skip x sub l : Subsequence sub l -> Subsequence sub (x :: l)
| sub_keep x sub l : Subsequence sub l -> Subsequence (x :: sub) (x :: l).

(** ** A concrete environment to run the client in *)

Module Fixture.

Definition hexVal (c : ascii) : option nat :=
  let n := nat_of_ascii c in
  if (48 <=? n)%nat && (n <=? 57)%nat then Some (n - 48)%nat
  else if (97 <=? n)%nat && (n <=? 102)%nat then Some (n - 87)%nat
  else if (65 <=? n)%nat && (n <=? 70)%nat then Some (n - 55)%nat
  else None.

(** Modelled from the spec: [DecodeHex] is not under src/; it decodes a
    hex-encoded byte string to text and fails on odd-length or non-hex
    input. *)
Fixpoint hexDecode (s : string) : Result string :=
  match s with
  | EmptyString => Ok EmptyString
  | String _ EmptyString => Err (codecError "odd length hex string")
  | String a (String b rest) =>
      match hexVal a, hexVal b with
      | Some x, Some y =>
          match hexDecode rest with
          | Ok t => Ok (String (ascii_of_nat (16 * x + y)) t)
          | Err e => Err e
          end
      | _, _ => Err (codecError "invalid hex byte")
      end
  end.

(** Stand-ins for the two address functions, which are not under src/:
    an address is in group 0 unless it is empty, and a token id that is
    valid hex is turned into a tagged address.  They only serve to run
    the client on concrete inputs. *)
Definition groupOf (address : string) : Result Z :=
  match address with
  | EmptyString => Err (codecError "malformed address")
  | _ => Ok 0
  end.

Definition addressOf (tokenId : string) : Result string :=
  match hexDecode tokenId with
  | Ok _ => Ok ("addr:" ++ tokenId)
  | Err e => Err e
  end.

#[export] Instance codec : Codec :=
  {| DecodeHex := hexDecode;
     groupOfAddress := groupOf;
     AddressFromTokenId := addressOf |}.

#[export] Instance httputil : HTTPUtil :=
  {| DumpRequestOut := fun r => Ok (Method r ++ " " ++ URL r) |}.

(** A decoder that knows the bodies of a table and rejects the rest. *)
Fixpoint canned {T} (table : list (string * T)) (data : string) (target : T)
  : T * option error :=
  match table with
  | [] => (target, Some (jsonError "unexpected end of JSON input"))
  | (body, v) :: table' =>
      if String.eqb data body then (v, None) else canned table' data target
  end.

Definition field (v : string) : Field := mkField "ByteVec" v.
Definition okRow (vs : list string) : CallContractResult :=
  mkCallContractResult "CallContractSucceeded" None (map field vs).
Definition failedRow (msg : string) : CallContractResult :=
  mkCallContractResult "CallContractFailed" (Some msg) [].

#[export] Instance subContracts : JSONTarget SubContractResponse :=
  {| json_Unmarshal :=
       canned [("page-AB", mkSubContractResponse ["A"; "B"]);
               ("page-C", mkSubContractResponse ["C"])] |}.

#[export] Instance callResult : JSONTarget CallContractResult :=
  {| json_Unmarshal :=
       canned [("pair", okRow ["aa"; "bb"]);
               ("single", okRow ["aa"]);
               ("none", okRow [])] |}.

#[export] Instance multicall : JSONTarget MulticallContractResponse :=
  {| json_Unmarshal :=
       canned [("ayin", mkMulticallContractResponse
                          [okRow ["4159494e"]; okRow ["4179696e20546f6b656e"];
                           okRow ["18"]]);
               ("wide", mkMulticallContractResponse
                          [okRow ["4159494e"]; okRow ["4179696e20546f6b656e"];
                           okRow ["256"]]);
               ("late-error", mkMulticallContractResponse
                          [okRow []; okRow ["4179696e20546f6b656e"];
                           failedRow "VM execution error"]);
               ("decimals-error", mkMulticallContractResponse
                          [okRow ["4159494e"]; okRow ["4179696e20546f6b656e"];
                           failedRow "VM execution error"])] |}.

Definition client : AlephiumClient :=
  NewAlephiumClient DefaultSleepBetweenContractCalls false.

Definition answer (status : Z) (body : string) : Result Response :=
  Ok (mkResponse status body (Ok body) None).

Definition world (answers : list (Result Response)) : World :=
  mkWorld answers [].

Definition token : string := "25ywM8iGxKpZWuGA5z6DXKGcZCXtPBmnbQyJEsjvjjWTy".

End Fixture.

(** ** The chain and event poller, transactions and contract state *)

Record ChainInfoResponse : Type := mkChainInfoResponse {
  CurrentHeight : Z
}.

Record BlockHashesResponse : Type := mkBlockHashesResponse {
  Headers : list string
}.

Record BlockEventsResponse : Type := mkBlockEventsResponse {
  Events : list ContractEvent
}.

(** [url.Parse] as [http.NewRequest] uses it: whether a URL is accepted. *)
Class NetURL : Type := {
  urlParses : string -> bool
}.

(** [http.NewRequest] on a URL that holds a caller's string: a nil request
    when the URL does not parse.  The client drops the error. *)
Definition http_NewRequestParsed `{NetURL} (method url : string) (body : Payload)
  : option Request :=
  if urlParses url then Some (mkRequest method url body) else None.

(** [callAPI] on a request pointer: a nil request is dereferenced by the
    dump in debug mode and by [HTTPClient.Do] otherwise. *)
Definition callAPIPtr {T} `{HTTPUtil} `{JSONTarget T} (c : AlephiumClient)
    (request : option Request) (target : T) : M (T * option error) :=
  match request with
  | Some r => callAPI c r target
  | None => panic "invalid memory address or nil pointer dereference"
  end.

Definition chainInfoURL : string :=
  NodeURL ++ "/blockflow/chain-info?fromGroup=0&toGroup=0".

Definition blockHashesURL (height : Z) : string :=
  NodeURL ++ "/blockflow/hashes?fromGroup=0&toGroup=0&height=" ++ itoa height.

Definition blockEventsURL (blockHash : string) : string :=
  NodeURL ++ "/events/block-hash/" ++ blockHash ++ "?group=0".

Definition transactionURL (txnHash : string) : string :=
  BackendURL ++ "/transactions/" ++ txnHash.

Definition contractStateURL (address : string) : string :=
  NodeURL ++ "/contracts/" ++ address ++ "/state".

Section Poller.
Context {HU : HTTPUtil} {NU : NetURL}.
Context {JChain : JSONTarget ChainInfoResponse}.
Context {JHashes : JSONTarget BlockHashesResponse}.
Context {JEvents : JSONTarget BlockEventsResponse}.

Definition GetCurrentHeight (c : AlephiumClient) : M (Z * option error) :=
  let request := http_NewRequest "GET" chainInfoURL NoBody in
  '(response, err) <- callAPI c request (mkChainInfoResponse 0) ;;
  match err with
  | Some e => emit (LoggedError "failed to callApi") ;; ret (0, Some e)
  | None => ret (CurrentHeight response, None)
  end.

Definition GetBlockHashes (c : AlephiumClient) (height : Z)
  : M (list string * option error) :=
  let request := http_NewRequest "GET" (blockHashesURL height) NoBody in
  '(response, err) <- callAPI c request (mkBlockHashesResponse []) ;;
  match err with
  | Some e => emit (LoggedError "failed to callApi") ;; ret ([], Some e)
  | None => ret (Headers response, None)
  end.

Definition GetBlockEvents (c : AlephiumClient) (blockHash : string)
  : M (list ContractEvent * option error) :=
  let request := http_NewRequestParsed "GET" (blockEventsURL blockHash) NoBody in
  '(response, err) <- callAPIPtr c request (mkBlockEventsResponse []) ;;
  match err with
  | Some e => emit (LoggedError "failed to callApi") ;; ret ([], Some e)
  | None => ret (Events response, None)
  end.

(** The declarations of the two response types are not under src/ and no
    field of them is read: they are a type with its zero value. *)
Variable TransactionDetailsResponse : Type.
Variable noTransactionDetails : TransactionDetailsResponse.
Context {JTxn : JSONTarget TransactionDetailsResponse}.

Definition GetTransactionDetails (c : AlephiumClient) (txnHash : string)
  : M (TransactionDetailsResponse * option error) :=
  let request := http_NewRequestParsed "GET" (transactionURL txnHash) NoBody in
  '(transactionDetailsResponse, err) <- callAPIPtr c request noTransactionDetails ;;
  match err with
  | Some e =>
      emit (LoggedError "failed to callApi") ;;
      ret (transactionDetailsResponse, Some e)
  | None => ret (transactionDetailsResponse, None)
  end.

Variable ContractStateResponse : Type.
Variable noContractState : ContractStateResponse.
Context {JState : JSONTarget ContractStateResponse}.

Definition GetContractState (c : AlephiumClient) (address : string)
  : M (ContractStateResponse * option error) :=
  let request := http_NewRequestParsed "GET" (contractStateURL address) NoBody in
  '(contractStateResponse, err) <- callAPIPtr c request noContractState ;;
  match err with
  | Some e =>
      emit (LoggedError "failed to callApi") ;;
      ret (contractStateResponse, Some e)
  | None => ret (contractStateResponse, None)
  end.
End Poller.

(** ** More observations on a world *)

(** How often a body was closed. *)
Fixpoint closes (t : list Event) : nat :=
  match t with
  | [] => 0%nat
  | Closed :: t' => S (closes t')
  | _ :: t' => closes t'
  end.

(** The trace without what only the dumps of debug mode do or displace:
    the printing, and the closing of the body, which a dump does itself
    and early. *)
Fixpoint withoutDumps (t : list Event) : list Event :=
  match t with
  | [] => []
  | Printed _ :: t' => withoutDumps t'
  | Closed :: t' => withoutDumps t'
  | e :: t' => e :: withoutDumps t'
  end.

(** The request leaves the client: diagnostics are off or the dump of the
    request succeeded. *)
Definition requestGoesOut `{HTTPUtil} (c : AlephiumClient) (request : Request)
  : bool :=
  negb (Debug c) || isOk (DumpRequestOut request).

Definition withDebug (debug : bool) (c : AlephiumClient) : AlephiumClient :=
  mkAlephiumClient debug (sleepBetweenCalls c).

(** A sub-result that the resolution can use: no error and a first return
    value. *)
Definition usableRow (r : CallContractResult) : Prop :=
  Error r = None /\ Returns r <> [].

(** A usable sub-result whose first value is valid hex. *)
Definition rowDecodes `{Codec} (r : CallContractResult) : bool :=
  isNone (Error r)
  && match Returns r with
     | f :: _ => isOk (DecodeHex (Value f))
     | [] => false
     end.

(** ** More concrete exchanges: the poller, failures, diagnostics *)

Module Scenarios.

(** A stand-in for [url.Parse]: it rejects what the library rejects first,
    a URL with an ASCII control character. *)
Fixpoint noControlByte (s : string) : bool :=
  match s with
  | EmptyString => true
  | String ch rest =>
      let n := nat_of_ascii ch in
      negb ((n <? 32)%nat || (n =? 127)%nat) && noControlByte rest
  end.

#[export] Instance neturl : NetURL := {| urlParses := noControlByte |}.

Definition swap (txId : string) : ContractEvent :=
  mkContractEvent SwapEventIndex [mkField "ByteVec" txId].
Definition mint (txId : string) : ContractEvent :=
  mkContractEvent 0 [mkField "ByteVec" txId].

#[export] Instance chainInfo : JSONTarget ChainInfoResponse :=
  {| json_Unmarshal := Fixture.canned [("height", mkChainInfoResponse 4177)] |}.

#[export] Instance blockHashes : JSONTarget BlockHashesResponse :=
  {| json_Unmarshal :=
       Fixture.canned [("hashes", mkBlockHashesResponse ["00ab"; "00cd"])] |}.

#[export] Instance blockEvents : JSONTarget BlockEventsResponse :=
  {| json_Unmarshal :=
       Fixture.canned
         [("events", mkBlockEventsResponse [mint "t1"; swap "t2"; swap "t3"])] |}.

(** A decoder that fills the first component before it fails on the
    second, as [json.Unmarshal] does on a type mismatch. *)
#[export] Instance details : JSONTarget (string * Z) :=
  {| json_Unmarshal := fun data target =>
       if String.eqb data "mismatch"
       then (("b974", snd target), Some (jsonError "cannot unmarshal string into Go value of type int"))
       else Fixture.canned [("txn", ("b974", 3))] data target |}.

(** The line feed. *)
Definition lineFeed : string := String (ascii_of_nat 10) EmptyString.

#[export] Existing Instance Fixture.codec.
#[export] Existing Instance Fixture.httputil.
#[export] Existing Instance Fixture.subContracts.

#[export] Instance callResult : JSONTarget CallContractResult :=
  {| json_Unmarshal :=
       Fixture.canned
         [("pair", Fixture.okRow ["aa"; "bb"]);
          ("triple", Fixture.okRow ["aa"; "bb"; "cc"]);
          ("failed", Fixture.failedRow "VM execution error");
          ("bad-single", Fixture.okRow ["zz"])] |}.

#[export] Instance multicall : JSONTarget MulticallContractResponse :=
  {| json_Unmarshal :=
       Fixture.canned
         [("ayin", mkMulticallContractResponse
                     [Fixture.okRow ["4159494e"];
                      Fixture.okRow ["4179696e20546f6b656e"];
                      Fixture.okRow ["18"]]);
          ("exponent", mkMulticallContractResponse
                     [Fixture.okRow ["4159494e"];
                      Fixture.okRow ["4179696e20546f6b656e"];
                      Fixture.okRow ["1e18"]]);
          ("short", mkMulticallContractResponse
                     [Fixture.okRow ["4159494e"];
                      Fixture.okRow ["4179696e20546f6b656e"]]);
          ("decimals-error", mkMulticallContractResponse
                     [Fixture.okRow ["4159494e"];
                      Fixture.okRow ["4179696e20546f6b656e"];
                      Fixture.failedRow "VM execution error"])] |}.

Definition quietClient : AlephiumClient :=
  NewAlephiumClient DefaultSleepBetweenContractCalls false.
Definition debugClient : AlephiumClient :=
  NewAlephiumClient DefaultSleepBetweenContractCalls true.

(** An answer whose body cannot be dumped, and one whose close fails. *)
Definition undumpable (status : Z) (body : string) : Response :=
  mkResponse status body (Err (dumpError "unexpected EOF")) None.
Definition uncloseable (status : Z) (body : string) : Response :=
  mkResponse status body (Ok body) (Some (closeError "connection reset")).
Definition unreadable (status : Z) (body : string) : Response :=
  mkResponseRead status body (Some (urlError "unexpected EOF")) (Ok body) None.

End Scenarios.

(** * Properties *)

(** ** Running the monad *)

Lemma bind_returned {A B} (m : M A) (k : A -> M B) w a w' :
  m w = (Returned a, w') -> bind m k w = k a w'.
Proof. intros H; unfold bind; rewrite H; reflexivity. Qed.

Lemma bind_panicked {A B} (m : M A) (k : A -> M B) w msg w' :
  m w = (Panicked msg, w') -> bind m k w = (Panicked msg, w').
Proof. intros H; unfold bind; rewrite H; reflexivity. Qed.

Lemma bind_inv {A B} (m : M A) (k : A -> M B) w b w' :
  bind m k w = (Returned b, w') ->
  exists a w1, m w = (Returned a, w1) /\ k a w1 = (Returned b, w').
Proof.
  unfold bind; destruct (m w) as [[a | msg] w1]; intros H.
  - exists a, w1; split; [reflexivity | exact H].
  - discriminate H.
Qed.

Lemma sleeps_app t1 t2 : sleeps (t1 ++ t2) = (sleeps t1 ++ sleeps t2)%list.
Proof.
  induction t1 as [| e t1 IH]; cbn; [reflexivity |].
  destruct e; cbn; rewrite IH; reflexivity.
Qed.

Lemma requestsSent_app t1 t2 :
  requestsSent (t1 ++ t2) = (requestsSent t1 ++ requestsSent t2)%list.
Proof.
  induction t1 as [| e t1 IH]; cbn; [reflexivity |].
  destruct e; cbn; rewrite IH; reflexivity.
Qed.

(** ** [strconv.ParseUint] on decimal digit strings *)

Lemma digitVal_decimal c :
  isDecimalDigit c = true ->
  digitVal c = Some (Z.of_nat (nat_of_ascii c) - 48)
  /\ 0 <= Z.of_nat (nat_of_ascii c) - 48 <= 9.
Proof.
  unfold isDecimalDigit, digitVal; cbv zeta; intros H; rewrite H.
  apply andb_true_iff in H; destruct H as [H1 H2].
  apply Z.leb_le in H1; apply Z.leb_le in H2; split; [reflexivity | lia].
Qed.

Lemma decimalValue_grows s : forall n,
  allDigits s = true -> 0 <= n -> n <= decimalValue s n.
Proof.
  induction s as [| c s IH]; cbn; intros n Hs Hn; [lia |].
  apply andb_true_iff in Hs; destruct Hs as [Hc Hs].
  destruct (digitVal_decimal c Hc) as [_ Hd].
  specialize (IH (n * 10 + (Z.of_nat (nat_of_ascii c) - 48)) Hs); lia.
Qed.

(** On digits only, the loop returns the numeric value when it is below
    2^32 and a range error otherwise. *)
Lemma parseDigits_decimal s0 s : forall n,
  allDigits s = true -> 0 <= n <= 4294967295 ->
  parseDigits s0 s 10 4294967295 1844674407370955162 n =
  if decimalValue s n <=? 4294967295 then (decimalValue s n, None)
  else (4294967295, Some (NumError "ParseUint" s0 ErrRange)).
Proof.
  induction s as [| c s IH]; intros n Hs Hn.
  - cbn. destruct (Z.leb_spec n 4294967295); [reflexivity | lia].
  - cbn [allDigits] in Hs. apply andb_true_iff in Hs; destruct Hs as [Hc Hs].
    destruct (digitVal_decimal c Hc) as [Hv Hd].
    cbn [parseDigits decimalValue]. rewrite Hv.
    set (d := Z.of_nat (nat_of_ascii c) - 48) in *.
    destruct (Z.leb_spec 10 d); [lia |].
    destruct (Z.leb_spec 1844674407370955162 n); [lia |].
    change (2 ^ 64) with 18446744073709551616.
    rewrite (Z.mod_small (n * 10)) by lia.
    rewrite (Z.mod_small (n * 10 + d)) by lia.
    destruct (Z.ltb_spec (n * 10 + d) (n * 10)); [lia |].
    destruct (Z.ltb_spec 4294967295 (n * 10 + d)) as [Hbig | Hfit]; cbn [orb].
    + pose proof (decimalValue_grows s (n * 10 + d) Hs ltac:(lia)).
      destruct (Z.leb_spec (decimalValue s (n * 10 + d)) 4294967295);
        [lia | reflexivity].
    + apply IH; [exact Hs | lia].
Qed.

Lemma ParseUint_decimal_32 s :
  s <> EmptyString -> allDigits s = true ->
  strconv_ParseUint s 10 32 =
  if decimalValue s 0 <=? 4294967295 then (decimalValue s 0, None)
  else (4294967295, Some (NumError "ParseUint" s ErrRange)).
Proof.
  intros Hne Hs. destruct s as [| c s]; [congruence |].
  unfold strconv_ParseUint.
  change (2 ^ 32 - 1) with 4294967295.
  change (maxUint64 / 10 + 1) with 1844674407370955162.
  apply parseDigits_decimal; [exact Hs | lia].
Qed.

(** ** The event filter *)

Lemma FilterEvents_fold k evs : forall acc,
  fold_left
    (fun events event =>
       if EventIndex event =? k then (events ++ [event])%list else events)
    evs acc
  = (acc ++ List.filter (fun e => EventIndex e =? k) evs)%list.
Proof.
  induction evs as [| e evs IH]; intros acc; cbn.
  - now rewrite app_nil_r.
  - rewrite IH. destruct (EventIndex e =? k); [| reflexivity].
    now rewrite <- app_assoc.
Qed.

Lemma FilterEvents_filter evs k :
  FilterEvents evs k = List.filter (fun e => EventIndex e =? k) evs.
Proof. unfold FilterEvents. now rewrite FilterEvents_fold. Qed.

Lemma Subsequence_filter {A} (p : A -> bool) l :
  Subsequence (List.filter p l) l.
Proof.
  induction l as [| x l IH]; cbn; [constructor |].
  destruct (p x); [now apply sub_keep | now apply sub_skip].
Qed.

Lemma Subsequence_into_filter {A} (p : A -> bool) sub l :
  Subsequence sub l -> Forall (fun x => p x = true) sub ->
  Subsequence sub (List.filter p l).
Proof.
  induction 1 as [| x sub l _ IH | x sub l _ IH]; intros Hall; cbn.
  - constructor.
  - destruct (p x); [apply sub_skip |]; now apply IH.
  - inversion Hall as [| ? ? Hx Hrest]; subst. rewrite Hx.
    apply sub_keep. now apply IH.
Qed.

(** C9: [FilterEvents] is a total function that returns the events whose
    index is [k], all of them and only them, in the order of the input:
    it is the filter of the input by the index test, it is a subsequence
    of the input whose events all carry [k], every such subsequence of the
    input is a subsequence of it, and it is empty on the empty input. *)
Theorem FilterEvents_exact_subsequence (evs : list ContractEvent) (k : Z) :
  FilterEvents evs k = List.filter (fun e => EventIndex e =? k) evs
  /\ Subsequence (FilterEvents evs k) evs
  /\ allIndexed k (FilterEvents evs k)
  /\ (forall sub, Subsequence sub evs -> allIndexed k sub ->
                  Subsequence sub (FilterEvents evs k))
  /\ FilterEvents [] k = [].
Proof.
  rewrite FilterEvents_filter. repeat split.
  - apply Subsequence_filter.
  - unfold allIndexed. apply Forall_forall. intros e He.
    apply filter_In in He. destruct He as [_ He]. now apply Z.eqb_eq.
  - intros sub Hsub Hall. apply Subsequence_into_filter; [exact Hsub |].
    unfold allIndexed in Hall. eapply Forall_impl; [| exact Hall].
    intros e He. now apply Z.eqb_eq.
Qed.

(** ** The gateway *)

Ltac run_gateway :=
  unfold callAPI, handleResponse, finishCall, DumpResponse, HTTPClient_Do,
    Body_Close, waiting, emit, bind, ret, decoded, reachesSleep, dumpsFine,
    dumpResponseResult, http_StatusOK in *;
  cbn [pending trace fst snd negb orb andb isOk isNone] in *.

Section GatewayFacts.
Context {HU : HTTPUtil}.
Context {T : Type} {JT : JSONTarget T}.
Variable c : AlephiumClient.

(** A call that ends without an error sent its request, once. *)
Lemma callAPI_ok_sent request (target v : T) w w' :
  callAPI c request target w = (Returned (v, None), w') ->
  requestsSent (trace w') = (requestsSent (trace w) ++ [request])%list.
Proof.
  run_gateway.
  destruct (Debug c); [destruct (DumpRequestOut request) |];
    (destruct (pending w) as [| [resp | eresp] rest]; cbn;
     [intros H; inversion H | | intros H; inversion H]);
    try (destruct (bodyRead resp)); try (destruct (bodyClose resp));
    try (destruct (bodyRead resp)); try (destruct (bodyClose resp));
  try (destruct (respDump resp));
    try (destruct (StatusCode resp =? 200));
    try (destruct (json_Unmarshal (Body resp) target) as [t' [je |]]);
    cbn; intros H; inversion H; subst; cbn;
    repeat rewrite requestsSent_app; cbn;
    repeat rewrite app_nil_r; reflexivity.
Qed.

(** [callAPI] never panics. *)
Lemma callAPI_returns request (target : T) w :
  exists r w', callAPI c request target w = (Returned r, w').
Proof.
  run_gateway.
  destruct (Debug c); [destruct (DumpRequestOut request) |];
    (destruct (pending w) as [| [resp | eresp] rest]; cbn);
    try (destruct (bodyRead resp)); try (destruct (bodyClose resp));
    try (destruct (bodyRead resp)); try (destruct (bodyClose resp));
  try (destruct (respDump resp));
    try (destruct (StatusCode resp =? 200));
    try (destruct (json_Unmarshal (Body resp) target) as [t' [je |]]);
    cbn; eauto.
Qed.

(** C2, as the code has it: the sleep is the last but one step of the
    path on which the answer is a 200 whose body decodes into the
    target.  For every answer received, [callAPI] sleeps the configured
    duration once when the exchange reaches that point, and does not
    sleep at all otherwise: not after a status other than 200 and not
    after a decoding failure. *)
Theorem callAPI_sleeps_only_after_decoding request (target : T) w resp rest :
  pending w = Ok resp :: rest ->
  sleeps (trace (snd (callAPI c request target w))) =
  (sleeps (trace w)
     ++ if reachesSleep c request resp target then [sleepBetweenCalls c] else [])%list.
Proof.
  intros Hp. run_gateway.
  destruct (Debug c); [destruct (DumpRequestOut request) |];
    rewrite ?Hp; cbn;
    try (destruct (bodyRead resp)); try (destruct (bodyClose resp));
    try (destruct (bodyRead resp)); try (destruct (bodyClose resp));
  try (destruct (respDump resp));
    try (destruct (StatusCode resp =? 200));
    try (destruct (json_Unmarshal (Body resp) target) as [t' [je |]]);
    cbn; repeat rewrite sleeps_app; cbn;
    repeat rewrite app_nil_r; try rewrite <- app_assoc; reflexivity.
Qed.

(** C3, as the code has it: once an answer is in (and the diagnostic
    dumps, when on, went fine), [callAPI] fails exactly on a status other
    than 200, the target untouched and the error the fixed
    [errors.New("not 200 http response code from api")], which carries
    neither the status nor the body; on status 200 it decodes the body
    into the target and returns the decoder's error, or else what
    closing the body returns. *)
Theorem callAPI_status_200_or_fixed_error request (target : T) w resp rest :
  pending w = Ok resp :: rest ->
  dumpsFine c request resp = true ->
  fst (callAPI c request target w) =
  Returned (if StatusCode resp =? 200 then decoded resp target
            else (target, Some (errors_New "not 200 http response code from api"))).
Proof.
  intros Hp Hd. run_gateway.
  destruct (Debug c); [destruct (DumpRequestOut request) |];
    rewrite ?Hp; cbn in *; try discriminate;
    try (destruct (bodyRead resp)); try (destruct (bodyClose resp));
    try (destruct (bodyRead resp)); try (destruct (bodyClose resp));
  try (destruct (respDump resp)); cbn in *; try discriminate;
    try (destruct (StatusCode resp =? 200));
    try (destruct (json_Unmarshal (Body resp) target) as [t' [je |]]);
    cbn; reflexivity.
Qed.
End GatewayFacts.

(** ** Pool discovery *)

Lemma appendContracts_app page1 more :
  appendContracts page1 more = mkSubContractResponse (SubContracts page1 ++ more).
Proof.
  unfold appendContracts. revert page1.
  induction more as [| x more IH]; intros [l]; cbn.
  - now rewrite app_nil_r.
  - rewrite IH; cbn. now rewrite <- app_assoc.
Qed.

Section DiscoveryFacts.
Context {HU : HTTPUtil} {JSub : JSONTarget SubContractResponse}.
Variable c : AlephiumClient.

(** The requests the client builds for the two pages are the backend's
    page 1 and page 2 of the registry's sub-contracts. *)
Lemma pageRequest_pages (pageSize : Z) :
  pageRequest pageSize "1" = subContractsPage pageSize 1
  /\ pageRequest pageSize "2" = subContractsPage pageSize 2.
Proof. split; reflexivity. Qed.

(** C5: for every page size, when the calls for page 1 and page 2
    succeed, pool discovery has sent exactly two requests, in this order:
    the GET of the sub-contracts of the root registry contract with
    [limit] set to the page size and [page=1], then the same with
    [page=2]; and it returns page 1's sub-contracts followed by page 2's,
    in their order. *)
Theorem GetSwapPairsContractAddresses_concat
    (pageSize : Z) w page1 w1 page2 w2 :
  callAPI c (subContractsPage pageSize 1) noSubContracts w
    = (Returned (page1, None), w1) ->
  callAPI c (subContractsPage pageSize 2) noSubContracts w1
    = (Returned (page2, None), w2) ->
  GetSwapPairsContractAddresses c pageSize w
    = (Returned (mkSubContractResponse
                   (SubContracts page1 ++ SubContracts page2), None), w2)
  /\ requestsSent (trace w2)
     = (requestsSent (trace w)
          ++ [subContractsPage pageSize 1; subContractsPage pageSize 2])%list.
Proof.
  destruct (pageRequest_pages pageSize) as [P1 P2].
  intros H1 H2. split.
  - unfold GetSwapPairsContractAddresses.
    fold (pageRequest pageSize "1"). fold (pageRequest pageSize "2").
    rewrite P1, P2.
    erewrite bind_returned by exact H1. cbn beta iota.
    erewrite bind_returned by exact H2. cbn beta iota.
    unfold ret. now rewrite appendContracts_app.
  - rewrite (callAPI_ok_sent _ _ _ _ _ _ H2), (callAPI_ok_sent _ _ _ _ _ _ H1).
    now rewrite <- app_assoc.
Qed.

(** C4, as the code has it: a failing page call ends pool discovery at
    once with the gateway's error, no later request being made, and the
    value handed back with the error is page 1's response as the call
    left it: when page 2 fails that is page 1's complete list, without
    any contract of page 2. *)
Theorem GetSwapPairsContractAddresses_failure (pageSize : Z) w :
  (forall page1 e w1,
      callAPI c (pageRequest pageSize "1") noSubContracts w
        = (Returned (page1, Some e), w1) ->
      GetSwapPairsContractAddresses c pageSize w
        = (Returned (page1, Some e), w1))
  /\ (forall page1 w1 page2 e w2,
      callAPI c (pageRequest pageSize "1") noSubContracts w
        = (Returned (page1, None), w1) ->
      callAPI c (pageRequest pageSize "2") noSubContracts w1
        = (Returned (page2, Some e), w2) ->
      GetSwapPairsContractAddresses c pageSize w
        = (Returned (page1, Some e), w2)).
Proof.
  split.
  - intros page1 e w1 H1. unfold GetSwapPairsContractAddresses.
    erewrite bind_returned by exact H1. reflexivity.
  - intros page1 w1 page2 e w2 H1 H2. unfold GetSwapPairsContractAddresses.
    erewrite bind_returned by exact H1. cbn beta iota.
    erewrite bind_returned by exact H2. reflexivity.
Qed.
End DiscoveryFacts.

(** ** Token pair resolution *)

Section TokenPairFacts.
Context {CD : Codec} {HU : HTTPUtil} {JCall : JSONTarget CallContractResult}.
Variable c : AlephiumClient.

(** C7, as the code has it: after a method-7 call that succeeded without
    an on-chain error, a return sequence of exactly two identifiers is
    indexed in bounds: the client returns, and what it returns is the pair
    of addresses that [AddressFromTokenId] gives for the first and the
    second identifier, in that order (or the first conversion error).
    With fewer than two return values there is no length check: with
    none, and with a single one that converts, the index is out of range
    and the client panics; with a single one that does not convert, the
    conversion error is returned before the second index is reached. *)
Theorem GetTokenPairAddresses_two_returns
    (contractAddress : string) (group : Z) w response w1 :
  groupOfAddress contractAddress = Ok group ->
  callAPI c (tokenPairRequest group contractAddress) noCallResult w
    = (Returned (response, None), w1) ->
  Error response = None ->
  (forall t1 t2, Returns response = [t1; t2] ->
     exists w2,
       GetTokenPairAddresses c contractAddress w
         = (Returned (convertPair t1 t2), w2)
       /\ (forall address1 address2,
             AddressFromTokenId (Value t1) = Ok address1 ->
             AddressFromTokenId (Value t2) = Ok address2 ->
             convertPair t1 t2 = ([address1; address2], None)))
  /\ (Returns response = [] ->
      GetTokenPairAddresses c contractAddress w
        = (Panicked "index out of range", w1))
  /\ (forall t1 address1,
        Returns response = [t1] ->
        AddressFromTokenId (Value t1) = Ok address1 ->
        GetTokenPairAddresses c contractAddress w
          = (Panicked "index out of range", w1))
  /\ (forall t1 e,
        Returns response = [t1] ->
        AddressFromTokenId (Value t1) = Err e ->
        GetTokenPairAddresses c contractAddress w
          = (Returned ([], Some e),
             mkWorld (pending w1)
               (trace w1 ++ [LoggedError "failed to calculate address1"]))).
Proof.
  intros Hg Hcall Herr.
  unfold GetTokenPairAddresses. rewrite Hg.
  unfold tokenPairRequest, noCallResult in Hcall.
  erewrite bind_returned by exact Hcall.
  repeat split.
  - intros t1 t2 Hret.
    cbn beta iota. rewrite Herr, Hret. unfold convertPair, index, bind, ret, emit.
    cbn [nth_error].
    destruct (AddressFromTokenId (Value t1)) as [a1 | e1].
    + destruct (AddressFromTokenId (Value t2)) as [a2 | e2]; cbn.
      * exists w1. split; [reflexivity |].
        intros ? ? E1 E2. inversion E1; inversion E2; now subst.
      * eexists. split; [reflexivity |]. intros ? ? _ E2. discriminate E2.
    + cbn. eexists. split; [reflexivity |]. intros ? ? E1. discriminate E1.
  - intros Hret.
    cbn beta iota. rewrite Herr, Hret. reflexivity.
  - intros t1 a1 Hret Ha.
    cbn beta iota. rewrite Herr, Hret. unfold index, bind, ret. cbn [nth_error].
    rewrite Ha. reflexivity.
  - intros t1 e Hret Ha.
    cbn beta iota. rewrite Herr, Hret. unfold index, bind, ret, emit.
    cbn [nth_error]. rewrite Ha. reflexivity.
Qed.
End TokenPairFacts.

(** ** Token metadata resolution *)

Section MetadataFacts.
Context {CD : Codec} {HU : HTTPUtil}.
Context {JMulti : JSONTarget MulticallContractResponse}.
Variable c : AlephiumClient.

Lemma buildCalls_ok contractAddress group :
  groupOfAddress contractAddress = Ok group ->
  buildCalls contractAddress [0; 1; 2] []
  = Ok (map (mkCallContractRequest group contractAddress) [0; 1; 2]).
Proof. intros Hg. cbn. rewrite Hg. reflexivity. Qed.

(** The sub-results before the first failed one are read at index 0. *)
Lemma collectResults_first_error pre row post msg : forall acc w,
  Forall (fun r => Error r = None /\ Returns r <> []) pre ->
  Error row = Some msg ->
  fst (collectResults (pre ++ row :: post) acc w)
  = Returned (Err (errors_New msg)).
Proof.
  induction pre as [| r pre IH]; intros acc w Hpre Hrow; cbn.
  - rewrite Hrow. reflexivity.
  - inversion Hpre as [| ? ? [He Hr] Hrest]; subst. rewrite He.
    destruct (Returns r) as [| f fs]; [congruence |].
    unfold index, bind at 1, ret. cbn [nth_error].
    now apply IH.
Qed.

(** A sub-result without an error and without a return value stops the
    loop with a panic, whatever follows it. *)
Lemma collectResults_empty_returns pre row post : forall acc w,
  Forall (fun r => Error r = None /\ Returns r <> []) pre ->
  Error row = None -> Returns row = [] ->
  collectResults (pre ++ row :: post) acc w = (Panicked "index out of range", w).
Proof.
  induction pre as [| r pre IH]; intros acc w Hpre He0 Hr0; cbn.
  - rewrite He0, Hr0. reflexivity.
  - inversion Hpre as [| ? ? [He Hr] Hrest]; subst. rewrite He.
    destruct (Returns r) as [| f fs]; [congruence |].
    unfold index, bind at 1, ret. cbn [nth_error].
    now apply IH.
Qed.

(** A failed sub-result that is reached ends the resolution with its
    error string as the error and no asset. *)
Lemma GetTokenInfoForContractDecoded_failed_row
    contractAddress blockchain group w response w1 pre row post msg :
  String.eqb contractAddress (Address ALPHNativeToken) = false ->
  groupOfAddress contractAddress = Ok group ->
  callAPI c (multicallRequest group contractAddress) noMulticall w
    = (Returned (response, None), w1) ->
  Results response = (pre ++ row :: post)%list ->
  Forall (fun r => Error r = None /\ Returns r <> []) pre ->
  Error row = Some msg ->
  fst (GetTokenInfoForContractDecoded c contractAddress blockchain w)
  = Returned (None, Some (errors_New msg)).
Proof.
  intros Hn Hg Hcall Hres Hpre Hrow.
  unfold GetTokenInfoForContractDecoded. rewrite Hn.
  rewrite (buildCalls_ok _ _ Hg).
  unfold multicallRequest, noMulticall in Hcall.
  erewrite bind_returned by exact Hcall. cbn beta iota.
  rewrite Hres.
  pose proof (collectResults_first_error pre row post msg [] w1 Hpre Hrow) as Hc.
  unfold bind at 1.
  destruct (collectResults (pre ++ row :: post) [] w1) as [o w2].
  cbn in Hc. subst o. reflexivity.
Qed.

(** What a successful decoding puts into the asset. *)
Lemma decodeMulticallRequestToAssets_ok contractAddress blockchain resp w a w' :
  decodeMulticallRequestToAssets contractAddress blockchain resp w
    = (Returned (a, None), w') ->
  Address a = contractAddress /\ Blockchain a = blockchain
  /\ 0 <= Decimals a < 256.
Proof.
  unfold decodeMulticallRequestToAssets. intros H.
  apply bind_inv in H. destruct H as (f0 & w0 & _ & H).
  destruct (DecodeHex (Value (outField f0))) as [symbol | e].
  2:{ apply bind_inv in H. destruct H as (? & ? & _ & H). discriminate H. }
  apply bind_inv in H. destruct H as (f1 & w2 & _ & H).
  destruct (DecodeHex (Value (outField f1))) as [name | e].
  2:{ apply bind_inv in H. destruct H as (? & ? & _ & H). discriminate H. }
  apply bind_inv in H. destruct H as (f2 & w3 & _ & H).
  destruct (strconv_ParseUint (Value (outField f2)) 10 32) as [decimals [e |]].
  { apply bind_inv in H. destruct H as (? & ? & _ & H). discriminate H. }
  unfold ret in H. inversion H; subst; cbn.
  repeat split; try reflexivity; unfold uint8;
    pose proof (Z.mod_pos_bound decimals 256 ltac:(lia)); lia.
Qed.

(** The decimals of a digit string below 2^32 are accepted and cut to
    their low eight bits. *)
Lemma decodeMulticallRequestToAssets_decimals
    contractAddress blockchain f0 f1 f2 more symbol name w :
  DecodeHex (Value (outField f0)) = Ok symbol ->
  DecodeHex (Value (outField f1)) = Ok name ->
  Value (outField f2) <> EmptyString ->
  allDigits (Value (outField f2)) = true ->
  decimalValue (Value (outField f2)) 0 <= 4294967295 ->
  decodeMulticallRequestToAssets contractAddress blockchain
    (mkOutputResult contractAddress (f0 :: f1 :: f2 :: more)) w
  = (Returned (mkAsset contractAddress symbol name
                 (decimalValue (Value (outField f2)) 0 mod 256) blockchain,
               None), w).
Proof.
  intros H0 H1 Hne Hd Hv.
  unfold decodeMulticallRequestToAssets, index, bind, ret. cbn.
  rewrite H0, H1. rewrite (ParseUint_decimal_32 _ Hne Hd).
  destruct (Z.leb_spec (decimalValue (Value (outField f2)) 0) 4294967295);
    [reflexivity | lia].
Qed.

(** C8: for the native token's address, and whatever the blockchain
    name, the resolution returns the hard-coded native asset and leaves
    the world as it found it: no request is built or sent, no answer is
    consumed and nothing is slept. *)
Theorem GetTokenInfoForContractDecoded_native (blockchain : string) w :
  GetTokenInfoForContractDecoded c (Address ALPHNativeToken) blockchain w
  = (Returned (Some ALPHNativeToken, None), w).
Proof.
  unfold GetTokenInfoForContractDecoded. rewrite String.eqb_refl. reflexivity.
Qed.

(** C10: an asset returned without error carries the caller's
    blockchain name exactly when it came from the multicall path; for
    the native token's address it is the hard-coded asset, whose
    blockchain name is empty whatever the caller passed. *)
Theorem GetTokenInfoForContractDecoded_blockchain
    (contractAddress blockchain : string) w a w' :
  GetTokenInfoForContractDecoded c contractAddress blockchain w
    = (Returned (Some a, None), w') ->
  if String.eqb contractAddress (Address ALPHNativeToken)
  then a = ALPHNativeToken /\ Blockchain a = EmptyString
  else Blockchain a = blockchain /\ Address a = contractAddress.
Proof.
  unfold GetTokenInfoForContractDecoded.
  destruct (String.eqb contractAddress (Address ALPHNativeToken)).
  - unfold ret. intros H. inversion H; subst. split; reflexivity.
  - destruct (buildCalls contractAddress [0; 1; 2] []) as [inputData | e];
      [| unfold ret; intros H; discriminate H].
    intros H. apply bind_inv in H. destruct H as ([response err] & w1 & _ & H).
    destruct err as [e |].
    { apply bind_inv in H. destruct H as (? & ? & _ & H). discriminate H. }
    apply bind_inv in H. destruct H as (collected & w2 & _ & H).
    destruct collected as [results | e]; [| discriminate H].
    apply bind_inv in H. destruct H as ([asset err] & w3 & Hdec & H).
    unfold ret in H. inversion H; subst.
    apply decodeMulticallRequestToAssets_ok in Hdec. tauto.
Qed.
(** C1: the decimals string is parsed within 32 bits and then converted
    to uint8.  Whenever the three sub-results decode and the decimals
    string is a digit string whose value lies between 256 and 2^32 - 1,
    the resolution does not fail: it returns an asset, without error,
    whose decimals are the value modulo 256 and so differ from the parsed
    value. *)
Theorem GetTokenInfoForContractDecoded_decimals_narrowed
    contractAddress blockchain group w w1 r0 r1 r2 f0 f1 f2 fs0 fs1 fs2
    symbol name :
  String.eqb contractAddress (Address ALPHNativeToken) = false ->
  groupOfAddress contractAddress = Ok group ->
  callAPI c (multicallRequest group contractAddress) noMulticall w
    = (Returned (mkMulticallContractResponse [r0; r1; r2], None), w1) ->
  Error r0 = None -> Error r1 = None -> Error r2 = None ->
  Returns r0 = f0 :: fs0 -> Returns r1 = f1 :: fs1 -> Returns r2 = f2 :: fs2 ->
  DecodeHex (Value f0) = Ok symbol ->
  DecodeHex (Value f1) = Ok name ->
  Value f2 <> EmptyString ->
  allDigits (Value f2) = true ->
  256 <= decimalValue (Value f2) 0 <= 4294967295 ->
  GetTokenInfoForContractDecoded c contractAddress blockchain w
  = (Returned (Some (mkAsset contractAddress symbol name
                       (decimalValue (Value f2) 0 mod 256) blockchain),
               None), w1)
  /\ decimalValue (Value f2) 0 mod 256 <> decimalValue (Value f2) 0.
Proof.
  intros Hn Hg Hcall He0 He1 He2 Hr0 Hr1 Hr2 Hs Hnm Hne Hd Hv. split.
  - unfold GetTokenInfoForContractDecoded. rewrite Hn.
    rewrite (buildCalls_ok _ _ Hg).
    unfold multicallRequest, noMulticall in Hcall.
    erewrite bind_returned by exact Hcall. cbn beta iota.
    cbn [Results collectResults]. rewrite He0, He1, He2, Hr0, Hr1, Hr2.
    cbn [index nth_error app].
    erewrite bind_returned by reflexivity. cbn beta iota.
    erewrite bind_returned by
      (apply (decodeMulticallRequestToAssets_decimals contractAddress blockchain
                (mkOutputField (resultType r0) f0)
                (mkOutputField (resultType r1) f1)
                (mkOutputField (resultType r2) f2) [] symbol name w1);
       cbn [outField]; [exact Hs | exact Hnm | exact Hne | exact Hd | lia]).
    reflexivity.
  - pose proof (Z.mod_pos_bound (decimalValue (Value f2) 0) 256 ltac:(lia)). lia.
Qed.

(** C6: a sub-result that carries no error and no return value, met
    before the failed one, ends the resolution with a panic at its index
    0: the on-chain error of the later sub-result is not what comes
    back. *)
Theorem GetTokenInfoForContractDecoded_panics_before_failed_row
    contractAddress blockchain group w response w1 pre row post failed msg :
  String.eqb contractAddress (Address ALPHNativeToken) = false ->
  groupOfAddress contractAddress = Ok group ->
  callAPI c (multicallRequest group contractAddress) noMulticall w
    = (Returned (response, None), w1) ->
  Results response = (pre ++ row :: post)%list ->
  Forall (fun r => Error r = None /\ Returns r <> []) pre ->
  Error row = None -> Returns row = [] ->
  In failed post -> Error failed = Some msg ->
  GetTokenInfoForContractDecoded c contractAddress blockchain w
  = (Panicked "index out of range", w1)
  /\ fst (GetTokenInfoForContractDecoded c contractAddress blockchain w)
     <> Returned (None, Some (errors_New msg)).
Proof.
  intros Hn Hg Hcall Hres Hpre He Hr _ _.
  assert (Hrun : GetTokenInfoForContractDecoded c contractAddress blockchain w
                 = (Panicked "index out of range", w1)).
  { unfold GetTokenInfoForContractDecoded. rewrite Hn.
    rewrite (buildCalls_ok _ _ Hg).
    unfold multicallRequest, noMulticall in Hcall.
    erewrite bind_returned by exact Hcall. cbn beta iota.
    rewrite Hres.
    erewrite bind_panicked by (now apply collectResults_empty_returns).
    reflexivity. }
  split; [exact Hrun |]. rewrite Hrun. cbn. discriminate.
Qed.
End MetadataFacts.

(** ** The client on concrete exchanges *)

Section Runs.
Import Fixture.

(** The node answers the decimals call with "256": the string parses
    within 32 bits, the conversion to uint8 keeps the low eight bits, and
    the resolution succeeds with an asset of 0 decimals. *)
Lemma GetTokenInfoForContractDecoded_decimals_narrowed_witness :
  callAPI client (multicallRequest 0 token) noMulticall (world [answer 200 "wide"])
  = (Returned (mkMulticallContractResponse
                 [okRow ["4159494e"]; okRow ["4179696e20546f6b656e"];
                  okRow ["256"]], None),
     mkWorld [] [Sent (multicallRequest 0 token); Slept 300; Closed])
  /\ strconv_ParseUint "256" 10 32 = (256, None)
  /\ GetTokenInfoForContractDecoded client token "Alephium"
       (world [answer 200 "wide"])
     = (Returned (Some (mkAsset token "AYIN" "Ayin Token" 0 "Alephium"), None),
        mkWorld [] [Sent (multicallRequest 0 token); Slept 300; Closed]).
Proof.
  assert (Hcall : callAPI client (multicallRequest 0 token) noMulticall
                    (world [answer 200 "wide"])
                  = (Returned (mkMulticallContractResponse
                                 [okRow ["4159494e"];
                                  okRow ["4179696e20546f6b656e"];
                                  okRow ["256"]], None),
                     mkWorld [] [Sent (multicallRequest 0 token); Slept 300; Closed]))
    by (vm_compute; reflexivity).
  assert (Hn : String.eqb token (Address ALPHNativeToken) = false) by reflexivity.
  assert (Hg : groupOfAddress token = Ok 0) by reflexivity.
  assert (Hs : DecodeHex (Value (field "4159494e")) = Ok "AYIN") by reflexivity.
  assert (Hnm : DecodeHex (Value (field "4179696e20546f6b656e")) = Ok "Ayin Token")
    by reflexivity.
  assert (Hne : Value (field "256") <> EmptyString) by discriminate.
  assert (Hv : 256 <= decimalValue (Value (field "256")) 0 <= 4294967295)
    by (vm_compute; split; discriminate).
  split; [exact Hcall |]. split; [vm_compute; reflexivity |].
  exact (proj1 (GetTokenInfoForContractDecoded_decimals_narrowed client token
                  "Alephium" 0 _ _ _ _ _ _ _ _ [] [] [] _ _
                  Hn Hg Hcall eq_refl eq_refl eq_refl eq_refl eq_refl eq_refl
                  Hs Hnm Hne eq_refl Hv)).
Defined.

(** The decimals of the test vector of the specification. *)
Example decimals_18_resolve_to_18 :
  fst (GetTokenInfoForContractDecoded client token "Alephium"
         (world [answer 200 "ayin"]))
  = Returned (Some (mkAsset token "AYIN" "Ayin Token" 18 "Alephium"), None).
Proof. vm_compute; reflexivity. Qed.

(** A decimals string that is not a number fails, and the asset handed
    back with the error is not nil: it holds the symbol and the name
    decoded so far. *)
Example decimals_malformed_partial_asset :
  fst (decodeMulticallRequestToAssets token "Alephium"
         (mkOutputResult token
            [mkOutputField "" (field "4159494e");
             mkOutputField "" (field "4179696e20546f6b656e");
             mkOutputField "" (field "1e18")])
         (world []))
  = Returned (mkAsset "" "AYIN" "Ayin Token" 0 "",
              Some (NumError "ParseUint" "1e18" ErrSyntax)).
Proof. vm_compute; reflexivity. Qed.

Lemma callAPI_sleeps_only_after_decoding_witness :
  pending (world [answer 200 "page-AB"]) = [answer 200 "page-AB"]
  /\ sleeps (trace (snd (callAPI client (pageRequest 100 "1") noSubContracts
                           (world [answer 200 "page-AB"]))))
     = [300].
Proof.
  split; [reflexivity |].
  exact (callAPI_sleeps_only_after_decoding client (pageRequest 100 "1")
           noSubContracts (world [answer 200 "page-AB"])
           (mkResponse 200 "page-AB" (Ok "page-AB") None) [] eq_refl).
Defined.

(** C2 fails on the API-error path: the answer is a 500, its body is
    read, the call returns the error, and nothing was slept. *)
Lemma callAPI_api_error_does_not_sleep :
  callAPI client (pageRequest 100 "1") noSubContracts
    (world [answer 500 "busy"])
  = (Returned (noSubContracts,
               Some (errors_New "not 200 http response code from api")),
     mkWorld [] [Sent (pageRequest 100 "1"); LoggedError "failed to call api"])
  /\ ~ In (Slept (sleepBetweenCalls client))
          (trace (snd (callAPI client (pageRequest 100 "1") noSubContracts
                         (world [answer 500 "busy"])))).
Proof.
  split; [vm_compute; reflexivity |].
  vm_compute. intros [H | [H | []]]; discriminate H.
Qed.

Lemma callAPI_status_200_or_fixed_error_witness :
  pending (world [answer 200 "page-AB"]) = [answer 200 "page-AB"]
  /\ dumpsFine client (pageRequest 100 "1")
       (mkResponse 200 "page-AB" (Ok "page-AB") None) = true
  /\ fst (callAPI client (pageRequest 100 "1") noSubContracts
            (world [answer 200 "page-AB"]))
     = Returned (mkSubContractResponse ["A"; "B"], None).
Proof.
  split; [reflexivity |]. split; [reflexivity |].
  exact (callAPI_status_200_or_fixed_error client (pageRequest 100 "1")
           noSubContracts (world [answer 200 "page-AB"])
           (mkResponse 200 "page-AB" (Ok "page-AB") None) [] eq_refl eq_refl).
Defined.

(** C3 fails on a 2xx status other than 200: a 201 whose body the
    decoder accepts is turned into the fixed error, the target left
    untouched; and the error of a 500 with another body is the same
    value, so it carries neither status nor body. *)
Lemma callAPI_rejects_201 :
  fst (callAPI client (pageRequest 100 "1") noSubContracts
         (world [answer 201 "page-AB"]))
  = Returned (noSubContracts,
              Some (errors_New "not 200 http response code from api"))
  /\ json_Unmarshal "page-AB" noSubContracts
     = (mkSubContractResponse ["A"; "B"], None)
  /\ fst (callAPI client (pageRequest 100 "1") noSubContracts
            (world [answer 500 "busy"]))
     = fst (callAPI client (pageRequest 100 "1") noSubContracts
              (world [answer 201 "page-AB"])).
Proof. repeat split; vm_compute; reflexivity. Qed.

Lemma GetSwapPairsContractAddresses_failure_witness :
  callAPI client (pageRequest 100 "1") noSubContracts
    (world [answer 200 "page-AB"; Err (urlError "connection reset")])
  = (Returned (mkSubContractResponse ["A"; "B"], None),
     mkWorld [Err (urlError "connection reset")]
       [Sent (pageRequest 100 "1"); Slept 300; Closed])
  /\ callAPI client (pageRequest 100 "2") noSubContracts
       (mkWorld [Err (urlError "connection reset")]
          [Sent (pageRequest 100 "1"); Slept 300; Closed])
     = (Returned (noSubContracts, Some (urlError "connection reset")),
        mkWorld []
          [Sent (pageRequest 100 "1"); Slept 300; Closed;
           Sent (pageRequest 100 "2")])
  /\ GetSwapPairsContractAddresses client 100
       (world [answer 200 "page-AB"; Err (urlError "connection reset")])
     = (Returned (mkSubContractResponse ["A"; "B"],
                  Some (urlError "connection reset")),
        mkWorld []
          [Sent (pageRequest 100 "1"); Slept 300; Closed;
           Sent (pageRequest 100 "2")]).
Proof.
  assert (H1 : callAPI client (pageRequest 100 "1") noSubContracts
                 (world [answer 200 "page-AB"; Err (urlError "connection reset")])
               = (Returned (mkSubContractResponse ["A"; "B"], None),
                  mkWorld [Err (urlError "connection reset")]
                    [Sent (pageRequest 100 "1"); Slept 300; Closed]))
    by (vm_compute; reflexivity).
  assert (H2 : callAPI client (pageRequest 100 "2") noSubContracts
                 (mkWorld [Err (urlError "connection reset")]
                    [Sent (pageRequest 100 "1"); Slept 300; Closed])
               = (Returned (noSubContracts, Some (urlError "connection reset")),
                  mkWorld []
                    [Sent (pageRequest 100 "1"); Slept 300; Closed;
                     Sent (pageRequest 100 "2")]))
    by (vm_compute; reflexivity).
  split; [exact H1 |]. split; [exact H2 |].
  exact (proj2 (GetSwapPairsContractAddresses_failure client 100 _)
           _ _ _ _ _ H1 H2).
Defined.

(** C4 fails when page 2 fails: the error comes back together with page
    1's two contracts. *)
Lemma page1_returned_when_page2_fails :
  fst (GetSwapPairsContractAddresses client 100
         (world [answer 200 "page-AB"; answer 500 "busy"]))
  = Returned (mkSubContractResponse ["A"; "B"],
              Some (errors_New "not 200 http response code from api")).
Proof. vm_compute; reflexivity. Qed.

(** The two URLs of pool discovery for the default page size. *)
Example subContractsURL_default :
  subContractsURL DefaultSwapContractsLimit "1"
  = "https://backend.mainnet.alephium.org/contracts/vyrkJHG49TXss6pGAz2dVxq5o7mBXNNXAV18nAeqVT1R/sub-contracts?limit=100&page=1"
  /\ subContractsURL DefaultSwapContractsLimit "2"
  = "https://backend.mainnet.alephium.org/contracts/vyrkJHG49TXss6pGAz2dVxq5o7mBXNNXAV18nAeqVT1R/sub-contracts?limit=100&page=2".
Proof. split; vm_compute; reflexivity. Qed.

Lemma GetSwapPairsContractAddresses_concat_witness :
  subContractsPage 100 1
  = mkRequest "GET"
      "https://backend.mainnet.alephium.org/contracts/vyrkJHG49TXss6pGAz2dVxq5o7mBXNNXAV18nAeqVT1R/sub-contracts?limit=100&page=1"
      NoBody
  /\ subContractsPage 100 2
     = mkRequest "GET"
         "https://backend.mainnet.alephium.org/contracts/vyrkJHG49TXss6pGAz2dVxq5o7mBXNNXAV18nAeqVT1R/sub-contracts?limit=100&page=2"
         NoBody
  /\ callAPI client (subContractsPage 100 1) noSubContracts
       (world [answer 200 "page-AB"; answer 200 "page-C"])
     = (Returned (mkSubContractResponse ["A"; "B"], None),
        mkWorld [answer 200 "page-C"]
          [Sent (subContractsPage 100 1); Slept 300; Closed])
  /\ callAPI client (subContractsPage 100 2) noSubContracts
       (mkWorld [answer 200 "page-C"]
          [Sent (subContractsPage 100 1); Slept 300; Closed])
     = (Returned (mkSubContractResponse ["C"], None),
        mkWorld []
          [Sent (subContractsPage 100 1); Slept 300; Closed;
           Sent (subContractsPage 100 2); Slept 300; Closed])
  /\ GetSwapPairsContractAddresses client 100
       (world [answer 200 "page-AB"; answer 200 "page-C"])
     = (Returned (mkSubContractResponse ["A"; "B"; "C"], None),
        mkWorld []
          [Sent (subContractsPage 100 1); Slept 300; Closed;
           Sent (subContractsPage 100 2); Slept 300; Closed])
  /\ requestsSent [Sent (subContractsPage 100 1); Slept 300; Closed;
                   Sent (subContractsPage 100 2); Slept 300; Closed]
     = [subContractsPage 100 1; subContractsPage 100 2].
Proof.
  assert (H1 : callAPI client (subContractsPage 100 1) noSubContracts
                 (world [answer 200 "page-AB"; answer 200 "page-C"])
               = (Returned (mkSubContractResponse ["A"; "B"], None),
                  mkWorld [answer 200 "page-C"]
                    [Sent (subContractsPage 100 1); Slept 300; Closed]))
    by (vm_compute; reflexivity).
  assert (H2 : callAPI client (subContractsPage 100 2) noSubContracts
                 (mkWorld [answer 200 "page-C"]
                    [Sent (subContractsPage 100 1); Slept 300; Closed])
               = (Returned (mkSubContractResponse ["C"], None),
                  mkWorld []
                    [Sent (subContractsPage 100 1); Slept 300; Closed;
                     Sent (subContractsPage 100 2); Slept 300; Closed]))
    by (vm_compute; reflexivity).
  split; [vm_compute; reflexivity |]. split; [vm_compute; reflexivity |].
  split; [exact H1 |]. split; [exact H2 |].
  destruct (GetSwapPairsContractAddresses_concat client 100 _ _ _ _ _ H1 H2)
    as [Hrun Hsent].
  split; [exact Hrun | exact Hsent].
Defined.
End Runs.

Section MoreRuns.
Import Fixture.

Lemma GetTokenPairAddresses_two_returns_witness :
  groupOfAddress "pool" = Ok 0
  /\ callAPI client (tokenPairRequest 0 "pool") noCallResult
       (world [answer 200 "pair"])
     = (Returned (okRow ["aa"; "bb"], None),
        mkWorld [] [Sent (tokenPairRequest 0 "pool"); Slept 300; Closed])
  /\ Error (okRow ["aa"; "bb"]) = None
  /\ exists w2,
       GetTokenPairAddresses client "pool" (world [answer 200 "pair"])
       = (Returned (["addr:aa"; "addr:bb"], None), w2).
Proof.
  assert (Hcall : callAPI client (tokenPairRequest 0 "pool") noCallResult
                    (world [answer 200 "pair"])
                  = (Returned (okRow ["aa"; "bb"], None),
                     mkWorld [] [Sent (tokenPairRequest 0 "pool"); Slept 300; Closed]))
    by (vm_compute; reflexivity).
  assert (Hg : groupOfAddress "pool" = Ok 0) by reflexivity.
  assert (He : Error (okRow ["aa"; "bb"]) = None) by reflexivity.
  split; [exact Hg |]. split; [exact Hcall |]. split; [exact He |].
  destruct (proj1 (GetTokenPairAddresses_two_returns client "pool" 0 _ _ _
                     Hg Hcall He)
              (field "aa") (field "bb") eq_refl) as (w2 & Hrun & _).
  exists w2. exact Hrun.
Defined.

(** A success payload with a single identifier: the second index is out
    of range. *)
Example GetTokenPairAddresses_single_return_panics :
  fst (GetTokenPairAddresses client "pool" (world [answer 200 "single"]))
  = Panicked "index out of range".
Proof. vm_compute; reflexivity. Qed.

(** The third sub-result carries an on-chain error, the first one
    succeeded without a return value: the loop indexes the empty return
    sequence of the first before it reaches the third. *)
Lemma GetTokenInfoForContractDecoded_panics_before_failed_row_witness :
  callAPI client (multicallRequest 0 token) noMulticall
    (world [answer 200 "late-error"])
  = (Returned (mkMulticallContractResponse
                 [okRow []; okRow ["4179696e20546f6b656e"];
                  failedRow "VM execution error"], None),
     mkWorld [] [Sent (multicallRequest 0 token); Slept 300; Closed])
  /\ Error (failedRow "VM execution error") = Some "VM execution error"
  /\ GetTokenInfoForContractDecoded client token "Alephium"
       (world [answer 200 "late-error"])
     = (Panicked "index out of range",
        mkWorld [] [Sent (multicallRequest 0 token); Slept 300; Closed]).
Proof.
  assert (Hcall : callAPI client (multicallRequest 0 token) noMulticall
                    (world [answer 200 "late-error"])
                  = (Returned (mkMulticallContractResponse
                                 [okRow []; okRow ["4179696e20546f6b656e"];
                                  failedRow "VM execution error"], None),
                     mkWorld [] [Sent (multicallRequest 0 token); Slept 300; Closed]))
    by (vm_compute; reflexivity).
  assert (Hn : String.eqb token (Address ALPHNativeToken) = false) by reflexivity.
  assert (Hg : groupOfAddress token = Ok 0) by reflexivity.
  assert (Hin : In (failedRow "VM execution error")
                   [okRow ["4179696e20546f6b656e"]; failedRow "VM execution error"])
    by (right; left; reflexivity).
  split; [exact Hcall |]. split; [reflexivity |].
  exact (proj1 (GetTokenInfoForContractDecoded_panics_before_failed_row client
                  token "Alephium" 0 _ _ _ [] (okRow []) _ _ "VM execution error"
                  Hn Hg Hcall eq_refl (Forall_nil _) eq_refl eq_refl Hin eq_refl)).
Defined.

(** With return values in the first two sub-results, the same error in
    the third is returned as the error, without an asset. *)
Example error_row_at_index_2_reported :
  fst (GetTokenInfoForContractDecoded client token "Alephium"
         (world [answer 200 "decimals-error"]))
  = Returned (None, Some (errors_New "VM execution error")).
Proof. vm_compute; reflexivity. Qed.

Lemma GetTokenInfoForContractDecoded_blockchain_witness :
  (GetTokenInfoForContractDecoded client token "Alephium"
     (world [answer 200 "ayin"])
   = (Returned (Some (mkAsset token "AYIN" "Ayin Token" 18 "Alephium"), None),
      mkWorld [] [Sent (multicallRequest 0 token); Slept 300; Closed])
   /\ Blockchain (mkAsset token "AYIN" "Ayin Token" 18 "Alephium") = "Alephium")
  /\ (GetTokenInfoForContractDecoded client (Address ALPHNativeToken) "Alephium"
        (world [])
      = (Returned (Some ALPHNativeToken, None), world [])
      /\ Blockchain ALPHNativeToken = "").
Proof.
  assert (H1 : GetTokenInfoForContractDecoded client token "Alephium"
                 (world [answer 200 "ayin"])
               = (Returned (Some (mkAsset token "AYIN" "Ayin Token" 18 "Alephium"),
                            None),
                  mkWorld [] [Sent (multicallRequest 0 token); Slept 300; Closed]))
    by (vm_compute; reflexivity).
  assert (H2 : GetTokenInfoForContractDecoded client (Address ALPHNativeToken)
                 "Alephium" (world [])
               = (Returned (Some ALPHNativeToken, None), world []))
    by (vm_compute; reflexivity).
  split; split; [exact H1 | | exact H2 |].
  - exact (proj1 (GetTokenInfoForContractDecoded_blockchain client token
                    "Alephium" _ _ _ H1)).
  - exact (proj2 (GetTokenInfoForContractDecoded_blockchain client
                    (Address ALPHNativeToken) "Alephium" _ _ _ H2)).
Defined.
End MoreRuns.

(** * Further properties of the client *)

Lemma closes_app t1 t2 : closes (t1 ++ t2) = (closes t1 + closes t2)%nat.
Proof.
  induction t1 as [| e t1 IH]; cbn; [reflexivity |].
  destruct e; cbn; rewrite IH; reflexivity.
Qed.

Lemma withoutDumps_app t1 t2 :
  withoutDumps (t1 ++ t2) = (withoutDumps t1 ++ withoutDumps t2)%list.
Proof.
  induction t1 as [| e t1 IH]; cbn; [reflexivity |].
  destruct e; cbn; rewrite IH; reflexivity.
Qed.

(** ** The gateway, path by path *)

Ltac gateway_paths c request resp target :=
  run_gateway; unfold requestGoesOut in *;
  cbn [pending trace fst snd negb orb andb isOk isNone tl] in *;
  destruct (Debug c); [destruct (DumpRequestOut request) |];
  cbn [pending trace fst snd negb orb andb isOk isNone tl] in *.

Ltac answer_paths resp target :=
  try (destruct (bodyRead resp)); try (destruct (bodyClose resp));
  try (destruct (respDump resp));
  try (destruct (StatusCode resp =? 200));
  try (destruct (json_Unmarshal (Body resp) target) as [? [? |]]);
  cbn [pending trace fst snd negb orb andb isOk isNone tl] in *.

Ltac trace_facts :=
  repeat rewrite requestsSent_app; repeat rewrite sleeps_app;
  repeat rewrite closes_app; repeat rewrite withoutDumps_app; cbn;
  repeat rewrite app_nil_r; repeat rewrite Nat.add_0_r;
  repeat rewrite <- app_assoc.

Section GatewayPaths.
Context {HU : HTTPUtil}.
Context {T : Type} {JT : JSONTarget T}.
Variable c : AlephiumClient.

(** One call is one attempt: the request goes out once and one answer is
    taken from the network, unless the dump of the request fails in debug
    mode, in which case nothing goes out and no answer is taken.  No path
    sends the request a second time. *)
Lemma callAPI_attempt request (target : T) w :
  requestsSent (trace (snd (callAPI c request target w)))
  = (requestsSent (trace w)
       ++ if requestGoesOut c request then [request] else [])%list
  /\ pending (snd (callAPI c request target w))
     = if requestGoesOut c request then tl (pending w) else pending w.
Proof.
  gateway_paths c request resp target;
    try (destruct (pending w) as [| [resp | eresp] rest]; cbn);
    answer_paths resp target; cbn; trace_facts; split; reflexivity.
Qed.

(** A transport failure is returned as it is: the target is untouched,
    and the call neither sleeps nor closes anything. *)
Theorem callAPI_transport_error request (target : T) w e rest :
  pending w = Err e :: rest ->
  requestGoesOut c request = true ->
  fst (callAPI c request target w) = Returned (target, Some e)
  /\ pending (snd (callAPI c request target w)) = rest
  /\ sleeps (trace (snd (callAPI c request target w))) = sleeps (trace w)
  /\ closes (trace (snd (callAPI c request target w))) = closes (trace w).
Proof.
  intros Hp Hout. gateway_paths c request resp target;
    try discriminate; rewrite Hp; cbn; trace_facts; repeat split; reflexivity.
Qed.

(** In debug mode a request whose dump fails is never sent: the dump's
    error is the result and the world is as before. *)
Lemma callAPI_request_dump_failure request (target : T) w e :
  Debug c = true ->
  DumpRequestOut request = Err e ->
  callAPI c request target w = (Returned (target, Some e), w).
Proof.
  intros Hd He. unfold callAPI. rewrite Hd, He. reflexivity.
Qed.

(** In debug mode an answer whose dump fails is lost, whatever its status
    and body: the dump's error is the result, the target is untouched, the
    answer is consumed and the call does not sleep.  The dump closes the
    body itself once it has read it, so the body is left open only when
    the failure is the reading. *)
Theorem callAPI_response_dump_failure request (target : T) w resp rest e :
  Debug c = true ->
  isOk (DumpRequestOut request) = true ->
  pending w = Ok resp :: rest ->
  dumpResponseResult resp = Err e ->
  fst (callAPI c request target w) = Returned (target, Some e)
  /\ pending (snd (callAPI c request target w)) = rest
  /\ sleeps (trace (snd (callAPI c request target w))) = sleeps (trace w)
  /\ closes (trace (snd (callAPI c request target w)))
     = (closes (trace w) + if isNone (bodyRead resp) then 1 else 0)%nat.
Proof.
  intros Hd Hreq Hp He. run_gateway. rewrite Hd.
  destruct (DumpRequestOut request); [| discriminate].
  cbn. rewrite Hp. cbn.
  destruct (bodyRead resp); [| destruct (bodyClose resp)];
    cbn in *; inversion He; subst; try rewrite He; cbn; trace_facts;
    repeat split; reflexivity.
Qed.

(** Where the body of an answer is closed.  With diagnostics off it is
    closed on the path that sleeps and on no other: after a status other
    than 200 and after a decoding failure the call returns with the body
    still open.  With diagnostics on, the dump closes the body as soon as
    it has read it, whatever the status, and the call closes nothing
    more. *)
Theorem callAPI_closes_body request (target : T) w resp rest :
  pending w = Ok resp :: rest ->
  requestGoesOut c request = true ->
  closes (trace (snd (callAPI c request target w)))
  = (closes (trace w)
       + if Debug c
         then (if isNone (bodyRead resp) then 1 else 0)
         else (if reachesSleep c request resp target then 1 else 0))%nat.
Proof.
  intros Hp Hout. gateway_paths c request resp target; try discriminate;
    rewrite ?Hp; cbn;
    answer_paths resp target; cbn; trace_facts; reflexivity.
Qed.

(** The success path with diagnostics off, step by step: the request is
    sent, the client sleeps, and only then is the body closed; the result
    is the decoded target together with whatever closing returned, so a
    failing close makes the call fail although the target is decoded. *)
Theorem callAPI_success_path request (target v : T) w resp rest :
  Debug c = false ->
  pending w = Ok resp :: rest ->
  StatusCode resp = 200 ->
  json_Unmarshal (Body resp) target = (v, None) ->
  callAPI c request target w
  = (Returned (v, bodyClose resp),
     mkWorld rest
       (trace w ++ [Sent request; Slept (sleepBetweenCalls c); Closed])).
Proof.
  intros Hd Hp Hs Hj. run_gateway. rewrite Hd. cbn. rewrite Hp. cbn.
  rewrite Hs, Hj. cbn. trace_facts. reflexivity.
Qed.

(** A call that returns without an error has slept once and closed the
    body once. *)
Lemma callAPI_ok_effects request (target v : T) w w' :
  callAPI c request target w = (Returned (v, None), w') ->
  sleeps (trace w') = (sleeps (trace w) ++ [sleepBetweenCalls c])%list
  /\ closes (trace w') = S (closes (trace w)).
Proof.
  gateway_paths c request resp target;
    (destruct (pending w) as [| [resp | eresp] rest]; cbn;
     [intros H; inversion H | | intros H; inversion H]);
    answer_paths resp target; cbn; intros H; inversion H; subst; cbn;
    trace_facts; split; try reflexivity; lia.
Qed.
End GatewayPaths.

(** Diagnostics do not change what a call whose dumps succeed returns:
    with debug on and off the result, the answers left and the pauses are
    the same, and the traces agree on everything but the printed dumps and
    the closing of the body, which the dump does itself and early. *)
Theorem callAPI_debug_transparent {HU : HTTPUtil} {T} {JT : JSONTarget T}
    (c : AlephiumClient) request (target : T) w resp rest :
  pending w = Ok resp :: rest ->
  isOk (DumpRequestOut request) = true ->
  isOk (dumpResponseResult resp) = true ->
  fst (callAPI (withDebug true c) request target w)
  = fst (callAPI (withDebug false c) request target w)
  /\ pending (snd (callAPI (withDebug true c) request target w))
     = pending (snd (callAPI (withDebug false c) request target w))
  /\ sleeps (trace (snd (callAPI (withDebug true c) request target w)))
     = sleeps (trace (snd (callAPI (withDebug false c) request target w)))
  /\ withoutDumps (trace (snd (callAPI (withDebug true c) request target w)))
     = withoutDumps
         (trace (snd (callAPI (withDebug false c) request target w))).
Proof.
  intros Hp Hreq Hresp. run_gateway. unfold withDebug. cbn.
  destruct (DumpRequestOut request); [| discriminate].
  cbn. rewrite Hp. cbn.
  destruct (bodyRead resp); [discriminate |].
  destruct (bodyClose resp); [discriminate |].
  destruct (respDump resp); [| discriminate].
  cbn.
  destruct (StatusCode resp =? 200);
    try (destruct (json_Unmarshal (Body resp) target) as [? [? |]]);
    cbn; trace_facts; repeat split; reflexivity.
Qed.

(** ** Pool discovery: requests and pauses *)

Section DiscoveryPaths.
Context {HU : HTTPUtil} {JSub : JSONTarget SubContractResponse}.
Variable c : AlephiumClient.

(** With diagnostics off, discovery always asks for page 1, and asks for
    page 2 exactly when the page-1 call returned no error; it makes no
    other request. *)
Theorem GetSwapPairsContractAddresses_requests (pageSize : Z) w :
  Debug c = false ->
  exists r1 w1,
    callAPI c (pageRequest pageSize "1") noSubContracts w = (Returned r1, w1)
    /\ requestsSent (trace (snd (GetSwapPairsContractAddresses c pageSize w)))
       = (requestsSent (trace w)
            ++ pageRequest pageSize "1"
               :: match snd r1 with
                  | None => [pageRequest pageSize "2"]
                  | Some _ => []
                  end)%list.
Proof.
  intros Hd.
  assert (Hout : forall request, requestGoesOut c request = true)
    by (intros request; unfold requestGoesOut; rewrite Hd; reflexivity).
  destruct (callAPI_returns c (pageRequest pageSize "1") noSubContracts w)
    as ([page1 err1] & w1 & H1).
  exists (page1, err1), w1. split; [exact H1 |].
  pose proof (proj1 (callAPI_attempt c (pageRequest pageSize "1")
                       noSubContracts w)) as S1.
  rewrite H1, Hout in S1. cbn [snd] in S1.
  unfold GetSwapPairsContractAddresses.
  erewrite bind_returned by exact H1. cbn beta iota.
  destruct err1 as [e1 |]; cbn [snd].
  - unfold ret. cbn [snd]. exact S1.
  - destruct (callAPI_returns c (pageRequest pageSize "2") noSubContracts w1)
      as ([page2 err2] & w2 & H2).
    pose proof (proj1 (callAPI_attempt c (pageRequest pageSize "2")
                         noSubContracts w1)) as S2.
    rewrite H2, Hout in S2. cbn [snd] in S2.
    erewrite bind_returned by exact H2. cbn beta iota.
    assert (Hw : requestsSent (trace w2)
                 = (requestsSent (trace w)
                      ++ [pageRequest pageSize "1"; pageRequest pageSize "2"])%list)
      by (rewrite S2, S1, <- app_assoc; reflexivity).
    destruct err2; unfold ret; cbn [snd]; exact Hw.
Qed.

(** A discovery that returns without an error has slept the configured
    duration twice and closed two bodies: the pause is paid once per
    page. *)
Theorem GetSwapPairsContractAddresses_ok_pauses (pageSize : Z) w r w' :
  GetSwapPairsContractAddresses c pageSize w = (Returned (r, None), w') ->
  sleeps (trace w')
  = (sleeps (trace w) ++ [sleepBetweenCalls c; sleepBetweenCalls c])%list
  /\ closes (trace w') = S (S (closes (trace w))).
Proof.
  unfold GetSwapPairsContractAddresses. intros H.
  apply bind_inv in H. destruct H as ([page1 err1] & w1 & H1 & H).
  destruct err1 as [e1 |]; [discriminate H |].
  apply bind_inv in H. destruct H as ([page2 err2] & w2 & H2 & H).
  destruct err2 as [e2 |]; [discriminate H |].
  unfold ret in H. inversion H; subst.
  destruct (callAPI_ok_effects c _ _ _ _ _ H1) as [S1 C1].
  destruct (callAPI_ok_effects c _ _ _ _ _ H2) as [S2 C2].
  rewrite S2, S1, C2, C1, <- app_assoc. split; reflexivity.
Qed.
End DiscoveryPaths.

(** ** Token pair resolution: errors and shape of the result *)

Section TokenPairPaths.
Context {CD : Codec} {HU : HTTPUtil} {JCall : JSONTarget CallContractResult}.
Variable c : AlephiumClient.

(** An on-chain error string ends the resolution with that string as the
    error before the return values are looked at: the call does not panic
    even when the payload has no return value. *)
Theorem GetTokenPairAddresses_on_chain_error
    (contractAddress : string) (group : Z) w response w1 msg :
  groupOfAddress contractAddress = Ok group ->
  callAPI c (tokenPairRequest group contractAddress) noCallResult w
    = (Returned (response, None), w1) ->
  Error response = Some msg ->
  GetTokenPairAddresses c contractAddress w
  = (Returned ([], Some (errors_New msg)),
     mkWorld (pending w1)
       (trace w1 ++ [LoggedError "failed to get token pair"])).
Proof.
  intros Hg Hcall Herr. unfold GetTokenPairAddresses. rewrite Hg.
  unfold tokenPairRequest, noCallResult in Hcall.
  erewrite bind_returned by exact Hcall. cbn beta iota. rewrite Herr.
  reflexivity.
Qed.

(** Return values after the second are ignored. *)
Theorem GetTokenPairAddresses_extra_returns
    (contractAddress : string) (group : Z) w response w1 t1 t2 more :
  groupOfAddress contractAddress = Ok group ->
  callAPI c (tokenPairRequest group contractAddress) noCallResult w
    = (Returned (response, None), w1) ->
  Error response = None ->
  Returns response = t1 :: t2 :: more ->
  fst (GetTokenPairAddresses c contractAddress w)
  = Returned (convertPair t1 t2).
Proof.
  intros Hg Hcall Herr Hret. unfold GetTokenPairAddresses. rewrite Hg.
  unfold tokenPairRequest, noCallResult in Hcall.
  erewrite bind_returned by exact Hcall. cbn beta iota. rewrite Herr, Hret.
  unfold convertPair, index, bind, ret, emit. cbn [nth_error].
  destruct (AddressFromTokenId (Value t1));
    [destruct (AddressFromTokenId (Value t2)) |]; reflexivity.
Qed.

(** Whatever the path, a result comes in one of two shapes: two addresses
    and no error, or no address and an error. *)
Theorem GetTokenPairAddresses_result_shape
    (contractAddress : string) w addresses err w' :
  GetTokenPairAddresses c contractAddress w = (Returned (addresses, err), w') ->
  match err with
  | None => length addresses = 2%nat
  | Some _ => addresses = []
  end.
Proof.
  unfold GetTokenPairAddresses.
  destruct (groupOfAddress contractAddress) as [group | e];
    [| unfold ret; intros H; inversion H; reflexivity].
  intros H. apply bind_inv in H. destruct H as ([response cerr] & w1 & _ & H).
  destruct cerr as [e |].
  { apply bind_inv in H. destruct H as (? & ? & _ & H).
    unfold ret in H. inversion H. reflexivity. }
  destruct (Error response) as [msg |].
  { apply bind_inv in H. destruct H as (? & ? & _ & H).
    unfold ret in H. inversion H. reflexivity. }
  apply bind_inv in H. destruct H as (r0 & w2 & _ & H).
  destruct (AddressFromTokenId (Value r0)) as [a1 | e].
  2:{ apply bind_inv in H. destruct H as (? & ? & _ & H).
      unfold ret in H. inversion H. reflexivity. }
  apply bind_inv in H. destruct H as (r1 & w3 & _ & H).
  destruct (AddressFromTokenId (Value r1)) as [a2 | e].
  2:{ apply bind_inv in H. destruct H as (? & ? & _ & H).
      unfold ret in H. inversion H. reflexivity. }
  unfold ret in H. inversion H. reflexivity.
Qed.

(** With diagnostics off, the resolution makes one request when the group
    of the address is known, the method-7 call for that group, and none
    when it is not; this holds on every path, the failing and the
    panicking ones included: nothing is retried. *)
Theorem GetTokenPairAddresses_requests (contractAddress : string) w :
  Debug c = false ->
  requestsSent (trace (snd (GetTokenPairAddresses c contractAddress w)))
  = (requestsSent (trace w)
       ++ match groupOfAddress contractAddress with
          | Ok group => [tokenPairRequest group contractAddress]
          | Err _ => []
          end)%list.
Proof.
  intros Hd. unfold GetTokenPairAddresses.
  destruct (groupOfAddress contractAddress) as [group | e];
    [| unfold ret; cbn; now rewrite app_nil_r].
  destruct (callAPI_returns c (tokenPairRequest group contractAddress)
              noCallResult w) as ([response cerr] & w1 & H1).
  pose proof (proj1 (callAPI_attempt c
                       (tokenPairRequest group contractAddress)
                       noCallResult w)) as S1.
  rewrite H1 in S1. unfold requestGoesOut in S1. rewrite Hd in S1.
  cbn [snd negb orb] in S1.
  unfold tokenPairRequest, noCallResult in H1.
  erewrite bind_returned by exact H1. cbn beta iota.
  fold (tokenPairRequest group contractAddress). rewrite <- S1.
  destruct cerr as [e |]; [cbn; trace_facts; reflexivity |].
  destruct (Error response) as [msg |]; [cbn; trace_facts; reflexivity |].
  destruct (Returns response) as [| r0 [| r1 more]];
    unfold index, bind, ret, emit; cbn [nth_error]; cbn;
    try reflexivity;
    destruct (AddressFromTokenId (Value r0)); cbn; trace_facts;
    try reflexivity;
    destruct (AddressFromTokenId (Value r1)); cbn; trace_facts; reflexivity.
Qed.
End TokenPairPaths.

(** ** [strconv.ParseUint]: which decimals strings are accepted *)

Lemma digitVal_not_decimal ch :
  isDecimalDigit ch = false ->
  match digitVal ch with
  | None => True
  | Some d => 10 <= d
  end.
Proof.
  unfold isDecimalDigit, digitVal; cbv zeta; intros H; rewrite H.
  set (n := Z.of_nat (nat_of_ascii ch)).
  destruct ((97 <=? n) && (n <=? 122)) eqn:Hl.
  - apply andb_true_iff in Hl. destruct Hl as [Hl _]. apply Z.leb_le in Hl. lia.
  - destruct ((65 <=? n) && (n <=? 90)) eqn:Hu; [| exact I].
    apply andb_true_iff in Hu. destruct Hu as [Hu _]. apply Z.leb_le in Hu. lia.
Qed.

Lemma parseDigits_rejects_non_digits s0 s : forall n,
  allDigits s = false -> 0 <= n <= 4294967295 ->
  snd (parseDigits s0 s 10 4294967295 1844674407370955162 n) <> None.
Proof.
  induction s as [| ch s IH]; intros n Hs Hn; [discriminate Hs |].
  cbn [allDigits] in Hs. cbn [parseDigits].
  destruct (isDecimalDigit ch) eqn:Hc.
  - destruct (digitVal_decimal ch Hc) as [Hv Hd]. rewrite Hv.
    set (d := Z.of_nat (nat_of_ascii ch) - 48) in *.
    destruct (Z.leb_spec 10 d); [lia |].
    destruct (Z.leb_spec 1844674407370955162 n); [lia |].
    change (2 ^ 64) with 18446744073709551616.
    rewrite (Z.mod_small (n * 10)) by lia.
    rewrite (Z.mod_small (n * 10 + d)) by lia.
    destruct (Z.ltb_spec (n * 10 + d) (n * 10)); [lia |].
    destruct (Z.ltb_spec 4294967295 (n * 10 + d)); cbn [orb snd];
      [discriminate |].
    apply IH; [exact Hs | lia].
  - pose proof (digitVal_not_decimal ch Hc) as Hv.
    destruct (digitVal ch) as [d |]; [| cbn; discriminate].
    destruct (Z.leb_spec 10 d); [cbn; discriminate | lia].
Qed.

(** The parse of line 401 accepts a string exactly when it is a non-empty
    string of decimal digits whose value is below 2^32: an empty string, a
    sign, a space, an exponent or a larger value is an error.  An accepted
    string yields its value. *)
Lemma ParseUint_32_accepts s :
  (snd (strconv_ParseUint s 10 32) = None
   <-> s <> EmptyString /\ allDigits s = true
       /\ decimalValue s 0 <= 4294967295)
  /\ (snd (strconv_ParseUint s 10 32) = None ->
      fst (strconv_ParseUint s 10 32) = decimalValue s 0).
Proof.
  destruct s as [| ch s].
  { cbn. split; [split; [discriminate | intros [H _]; congruence]
                | discriminate]. }
  destruct (allDigits (String ch s)) eqn:Hd.
  - rewrite (ParseUint_decimal_32 (String ch s)) by (congruence || exact Hd).
    destruct (Z.leb_spec (decimalValue (String ch s) 0) 4294967295); cbn [fst snd].
    + split; [split; [intros _; repeat split; [discriminate | lia]
                     | reflexivity] | reflexivity].
    + split; [split; [discriminate | intros (_ & _ & H'); lia] | discriminate].
  - assert (Hrej : snd (strconv_ParseUint (String ch s) 10 32) <> None).
    { unfold strconv_ParseUint.
      change (2 ^ 32 - 1) with 4294967295.
      change (maxUint64 / 10 + 1) with 1844674407370955162.
      apply parseDigits_rejects_non_digits; [exact Hd | lia]. }
    split; [split; [intros H; contradiction
                   | intros (_ & H' & _); discriminate H']
           | intros H; contradiction].
Qed.

(** ** Token metadata resolution: what a result implies *)

Lemma index_inv {A} (l : list A) i w x w' :
  index l i w = (Returned x, w') -> nth_error l i = Some x /\ w' = w.
Proof.
  unfold index; destruct (nth_error l i); cbn; intros H; inversion H; auto.
Qed.

Ltac short_answer :=
  cbv beta iota zeta
      delta [bind index ret emit collectResults decodeMulticallRequestToAssets
             nth_error SymbolMethod NameMethod DecimalsMethod
             outResults outField app].

Section MetadataPaths.
Context {CD : Codec} {HU : HTTPUtil}.
Context {JMulti : JSONTarget MulticallContractResponse}.
Variable c : AlephiumClient.

Lemma collectResults_inv rows : forall acc w results w',
  collectResults rows acc w = (Returned (Ok results), w') ->
  Forall usableRow rows
  /\ length results = (length acc + length rows)%nat
  /\ w' = w.
Proof.
  induction rows as [| row rows IH]; intros acc w results w' H; cbn in H.
  - unfold ret in H. inversion H; subst. rewrite Nat.add_0_r. auto.
  - destruct (Error row) as [msg |] eqn:He.
    { apply bind_inv in H. destruct H as (? & ? & _ & H). discriminate H. }
    apply bind_inv in H. destruct H as (r0 & w0 & Hi & H).
    apply index_inv in Hi. destruct Hi as [Hi ->].
    apply IH in H. destruct H as (Hall & Hlen & ->).
    repeat split.
    + constructor; [| exact Hall]. split; [exact He |].
      intros Hnil. rewrite Hnil in Hi. discriminate Hi.
    + rewrite Hlen, length_app. cbn. lia.
Qed.

Lemma decodeMulticallRequestToAssets_ok_length
    contractAddress blockchain resp w a w' :
  decodeMulticallRequestToAssets contractAddress blockchain resp w
    = (Returned (a, None), w') ->
  (3 <= length (outResults resp))%nat /\ w' = w.
Proof.
  unfold decodeMulticallRequestToAssets. intros H.
  apply bind_inv in H. destruct H as (f0 & w0 & Hi0 & H).
  apply index_inv in Hi0. destruct Hi0 as [_ ->].
  destruct (DecodeHex (Value (outField f0))) as [symbol | e].
  2:{ apply bind_inv in H. destruct H as (? & ? & _ & H). discriminate H. }
  apply bind_inv in H. destruct H as (f1 & w2 & Hi1 & H).
  apply index_inv in Hi1. destruct Hi1 as [_ ->].
  destruct (DecodeHex (Value (outField f1))) as [name | e].
  2:{ apply bind_inv in H. destruct H as (? & ? & _ & H). discriminate H. }
  apply bind_inv in H. destruct H as (f2 & w3 & Hi2 & H).
  apply index_inv in Hi2. destruct Hi2 as [Hi2 ->].
  destruct (strconv_ParseUint (Value (outField f2)) 10 32) as [decimals [e |]].
  { apply bind_inv in H. destruct H as (? & ? & _ & H). discriminate H. }
  unfold ret in H. inversion H; subst. split; [| reflexivity].
  assert (Hlt : (DecimalsMethod < length (outResults resp))%nat)
    by (apply nth_error_Some; rewrite Hi2; discriminate).
  unfold DecimalsMethod in Hlt. lia.
Qed.

(** An asset comes back without an error only if the node answered with
    at least three sub-results and every sub-result of the answer, the
    ones after the third included, is free of an error and has a return
    value; the world is then the one the gateway call left. *)
Theorem GetTokenInfoForContractDecoded_ok_needs_all_rows
    contractAddress blockchain group w response w1 a w' :
  String.eqb contractAddress (Address ALPHNativeToken) = false ->
  groupOfAddress contractAddress = Ok group ->
  callAPI c (multicallRequest group contractAddress) noMulticall w
    = (Returned (response, None), w1) ->
  GetTokenInfoForContractDecoded c contractAddress blockchain w
    = (Returned (Some a, None), w') ->
  (3 <= length (Results response))%nat
  /\ Forall usableRow (Results response)
  /\ w' = w1.
Proof.
  intros Hn Hg Hcall H. unfold GetTokenInfoForContractDecoded in H.
  rewrite Hn, (buildCalls_ok _ _ Hg) in H.
  unfold multicallRequest, noMulticall in Hcall.
  erewrite bind_returned in H by exact Hcall. cbn beta iota in H.
  apply bind_inv in H. destruct H as (collected & w2 & Hc & H).
  destruct collected as [results | e]; [| discriminate H].
  apply collectResults_inv in Hc. destruct Hc as (Hall & Hlen & ->).
  apply bind_inv in H. destruct H as ([asset err] & w3 & Hdec & H).
  unfold ret in H. inversion H; subst.
  apply decodeMulticallRequestToAssets_ok_length in Hdec.
  destruct Hdec as [Hl ->]. cbn [outResults] in Hl. cbn [length] in Hlen.
  repeat split; [lia | exact Hall].
Qed.

Lemma decodeMulticallRequestToAssets_error_asset
    contractAddress blockchain resp w a e w' :
  decodeMulticallRequestToAssets contractAddress blockchain resp w
    = (Returned (a, Some e), w') ->
  Address a = EmptyString /\ Decimals a = 0 /\ Blockchain a = EmptyString.
Proof.
  unfold decodeMulticallRequestToAssets. intros H.
  apply bind_inv in H. destruct H as (f0 & w0 & _ & H).
  destruct (DecodeHex (Value (outField f0))) as [symbol | e0].
  2:{ apply bind_inv in H. destruct H as (? & ? & _ & H).
      unfold ret in H. inversion H; subst. cbn. auto. }
  apply bind_inv in H. destruct H as (f1 & w2 & _ & H).
  destruct (DecodeHex (Value (outField f1))) as [name | e1].
  2:{ apply bind_inv in H. destruct H as (? & ? & _ & H).
      unfold ret in H. inversion H; subst. cbn. auto. }
  apply bind_inv in H. destruct H as (f2 & w3 & _ & H).
  destruct (strconv_ParseUint (Value (outField f2)) 10 32) as [decimals [e2 |]].
  { apply bind_inv in H. destruct H as (? & ? & _ & H).
    unfold ret in H. inversion H; subst. cbn. auto. }
  unfold ret in H. discriminate H.
Qed.

(** When an asset comes back together with an error, it is the asset of
    a decoding that stopped half way: its address and blockchain are
    empty and its decimals 0, only symbol and name may be set.  Such a
    result never carries the address that was asked for. *)
Theorem GetTokenInfoForContractDecoded_error_asset_is_partial
    contractAddress blockchain w a e w' :
  GetTokenInfoForContractDecoded c contractAddress blockchain w
    = (Returned (Some a, Some e), w') ->
  Address a = EmptyString /\ Decimals a = 0 /\ Blockchain a = EmptyString.
Proof.
  unfold GetTokenInfoForContractDecoded.
  destruct (String.eqb contractAddress (Address ALPHNativeToken));
    [unfold ret; intros H; discriminate H |].
  destruct (buildCalls contractAddress [0; 1; 2] []) as [inputData | e0];
    [| unfold ret; intros H; discriminate H].
  intros H. apply bind_inv in H. destruct H as ([response err] & w1 & _ & H).
  destruct err as [e1 |].
  { apply bind_inv in H. destruct H as (? & ? & _ & H). discriminate H. }
  apply bind_inv in H. destruct H as (collected & w2 & _ & H).
  destruct collected as [results | e2]; [| discriminate H].
  apply bind_inv in H. destruct H as ([asset err] & w3 & Hdec & H).
  unfold ret in H. inversion H; subst.
  now apply decodeMulticallRequestToAssets_error_asset in Hdec.
Qed.

(** An answer with fewer than three sub-results, each of them usable and
    with a first value that is valid hex, makes the resolution panic: the
    decoding indexes the positions 0, 1 and 2 without a length check. *)
Theorem GetTokenInfoForContractDecoded_short_answer_panics
    contractAddress blockchain group w response w1 :
  String.eqb contractAddress (Address ALPHNativeToken) = false ->
  groupOfAddress contractAddress = Ok group ->
  callAPI c (multicallRequest group contractAddress) noMulticall w
    = (Returned (response, None), w1) ->
  (length (Results response) < 3)%nat ->
  forallb rowDecodes (Results response) = true ->
  GetTokenInfoForContractDecoded c contractAddress blockchain w
  = (Panicked "index out of range", w1).
Proof.
  intros Hn Hg Hcall Hlen Hrows. unfold GetTokenInfoForContractDecoded.
  rewrite Hn, (buildCalls_ok _ _ Hg).
  unfold multicallRequest, noMulticall in Hcall.
  erewrite bind_returned by exact Hcall. cbn beta iota.
  destruct (Results response) as [| r0 [| r1 [| r2 more]]];
    cbn [length] in Hlen; try lia; cbn [forallb] in Hrows;
    unfold rowDecodes in Hrows; cbn [collectResults].
  - reflexivity.
  - destruct (Error r0); [discriminate Hrows |].
    destruct (Returns r0) as [| f0 fs0]; [discriminate Hrows |].
    cbn in Hrows. destruct (DecodeHex (Value f0)) eqn:H0; [| discriminate Hrows].
    short_answer. rewrite H0. short_answer. reflexivity.
  - destruct (Error r0); [discriminate Hrows |].
    destruct (Returns r0) as [| f0 fs0]; [discriminate Hrows |].
    destruct (Error r1); [cbn in Hrows; rewrite andb_false_r in Hrows;
                          discriminate Hrows |].
    destruct (Returns r1) as [| f1 fs1];
      [cbn in Hrows; rewrite andb_false_r in Hrows; discriminate Hrows |].
    cbn in Hrows.
    destruct (DecodeHex (Value f0)) eqn:H0; [| discriminate Hrows].
    destruct (DecodeHex (Value f1)) eqn:H1; [| discriminate Hrows].
    short_answer. rewrite H0. short_answer. rewrite H1. short_answer.
    reflexivity.
Qed.
End MetadataPaths.

(** ** Token metadata resolution: requests and the decimals string *)

Section MetadataRequests.
Context {CD : Codec} {HU : HTTPUtil}.
Context {JMulti : JSONTarget MulticallContractResponse}.
Variable c : AlephiumClient.

Lemma collectResults_sends_nothing rows : forall acc w,
  requestsSent (trace (snd (collectResults rows acc w))) = requestsSent (trace w).
Proof.
  induction rows as [| row rows IH]; intros acc w; cbn [collectResults].
  - reflexivity.
  - destruct (Error row); [cbn; trace_facts; reflexivity |].
    destruct (Returns row) as [| f fs]; [reflexivity |].
    unfold index, bind at 1, ret. cbn [nth_error]. apply IH.
Qed.

Lemma decodeMulticallRequestToAssets_sends_nothing
    contractAddress blockchain resp w :
  requestsSent (trace (snd (decodeMulticallRequestToAssets
                              contractAddress blockchain resp w)))
  = requestsSent (trace w).
Proof.
  destruct resp as [address results].
  unfold decodeMulticallRequestToAssets. cbn [outResults].
  destruct results as [| f0 results]; [reflexivity |].
  unfold index at 1, bind at 1, ret at 1. cbn [nth_error SymbolMethod].
  destruct (DecodeHex (Value (outField f0))); [| cbn; trace_facts; reflexivity].
  destruct results as [| f1 results]; [reflexivity |].
  unfold index at 1, bind at 1, ret at 1. cbn [nth_error NameMethod].
  destruct (DecodeHex (Value (outField f1))); [| cbn; trace_facts; reflexivity].
  destruct results as [| f2 results]; [reflexivity |].
  unfold index at 1, bind at 1, ret at 1. cbn [nth_error DecimalsMethod].
  destruct (strconv_ParseUint (Value (outField f2)) 10 32) as [decimals [e |]];
    cbn; trace_facts; reflexivity.
Qed.

(** With diagnostics off, the resolution of a token other than the native
    one makes one request when the group of its address is known: the
    multicall that batches the methods 0, 1 and 2 for that group and
    address.  It makes none for the native token or an address without a
    group.  This holds on every path, the failing and the panicking ones
    included: the three calls are never sent one by one and nothing is
    retried. *)
Theorem GetTokenInfoForContractDecoded_requests
    (contractAddress blockchain : string) w :
  Debug c = false ->
  requestsSent
    (trace (snd (GetTokenInfoForContractDecoded c contractAddress blockchain w)))
  = (requestsSent (trace w)
       ++ if String.eqb contractAddress (Address ALPHNativeToken) then []
          else match groupOfAddress contractAddress with
               | Ok group => [multicallRequest group contractAddress]
               | Err _ => []
               end)%list.
Proof.
  intros Hd. unfold GetTokenInfoForContractDecoded.
  destruct (String.eqb contractAddress (Address ALPHNativeToken));
    [unfold ret; cbn; now rewrite app_nil_r |].
  destruct (groupOfAddress contractAddress) as [group | e] eqn:Hg.
  2:{ cbn. rewrite Hg. unfold ret. cbn. now rewrite app_nil_r. }
  rewrite (buildCalls_ok _ _ Hg).
  destruct (callAPI_returns c (multicallRequest group contractAddress)
              noMulticall w) as ([response cerr] & w1 & H1).
  pose proof (proj1 (callAPI_attempt c
                       (multicallRequest group contractAddress)
                       noMulticall w)) as S1.
  rewrite H1 in S1. unfold requestGoesOut in S1. rewrite Hd in S1.
  cbn [snd negb orb] in S1.
  unfold multicallRequest, noMulticall in H1.
  erewrite bind_returned by exact H1. cbn beta iota.
  fold (multicallRequest group contractAddress). rewrite <- S1.
  destruct cerr as [e |]; [cbn; trace_facts; reflexivity |].
  pose proof (collectResults_sends_nothing (Results response) [] w1) as S2.
  unfold bind at 1.
  destruct (collectResults (Results response) [] w1) as [[collected | msg] w2];
    cbn [snd] in S2; [| cbn; exact S2].
  destruct collected as [results | e]; [| unfold ret; cbn; exact S2].
  pose proof (decodeMulticallRequestToAssets_sends_nothing contractAddress
                blockchain (mkOutputResult contractAddress results) w2) as S3.
  unfold bind.
  destruct (decodeMulticallRequestToAssets contractAddress blockchain
              (mkOutputResult contractAddress results) w2)
    as [[[asset err] | msg] w3]; cbn [snd] in S3; unfold ret; cbn;
    rewrite S3; exact S2.
Qed.

(** Once symbol and name are decoded, the decoding succeeds exactly when
    the decimals string is a non-empty string of decimal digits whose
    value is below 2^32; every other string (empty, signed, with a space
    or an exponent, or too large) is returned as an error. *)
Theorem decodeMulticallRequestToAssets_accepts
    contractAddress blockchain f0 f1 f2 more symbol name w :
  DecodeHex (Value (outField f0)) = Ok symbol ->
  DecodeHex (Value (outField f1)) = Ok name ->
  exists a err w',
    decodeMulticallRequestToAssets contractAddress blockchain
      (mkOutputResult contractAddress (f0 :: f1 :: f2 :: more)) w
    = (Returned (a, err), w')
    /\ (err = None
        <-> Value (outField f2) <> EmptyString
            /\ allDigits (Value (outField f2)) = true
            /\ decimalValue (Value (outField f2)) 0 <= 4294967295).
Proof.
  intros H0 H1.
  pose proof (proj1 (ParseUint_32_accepts (Value (outField f2)))) as Hacc.
  unfold decodeMulticallRequestToAssets, index, bind, ret, emit. cbn.
  rewrite H0, H1.
  destruct (strconv_ParseUint (Value (outField f2)) 10 32) as [decimals [e |]];
    cbn [snd] in Hacc; cbn.
  - eexists _, _, _. split; [reflexivity |].
    split; [discriminate |]. intros H. apply Hacc in H. discriminate H.
  - eexists _, _, _. split; [reflexivity |].
    split; [intros _; now apply Hacc | reflexivity].
Qed.
End MetadataRequests.

(** ** The event filter as an operation on lists *)

(** Filtering the events of several blocks at once is filtering block by
    block. *)
Theorem FilterEvents_app (evs1 evs2 : list ContractEvent) (k : Z) :
  FilterEvents (evs1 ++ evs2) k
  = (FilterEvents evs1 k ++ FilterEvents evs2 k)%list.
Proof. rewrite !FilterEvents_filter. apply filter_app. Qed.

(** Filtering twice: by the same index it changes nothing more, by another
    index nothing is left. *)
Theorem FilterEvents_twice (evs : list ContractEvent) (k j : Z) :
  FilterEvents (FilterEvents evs k) j
  = if k =? j then FilterEvents evs k else [].
Proof.
  rewrite !FilterEvents_filter.
  induction evs as [| e evs IH]; cbn; [now destruct (k =? j) |].
  destruct (Z.eqb_spec (EventIndex e) k) as [Hk | Hk]; [| exact IH].
  cbn. rewrite IH. subst k.
  destruct (Z.eqb_spec (EventIndex e) j); reflexivity.
Qed.

(** ** One attempt, one pause *)

Section GatewaySummary.
Context {HU : HTTPUtil}.
Context {T : Type} {JT : JSONTarget T}.
Variable c : AlephiumClient.

(** One call is one attempt, on every path: the request goes out once and
    one answer is taken from the network, unless the dump of the request
    fails in debug mode, in which case nothing goes out and no answer is
    taken.  The gateway never sends a request a second time. *)
Theorem callAPI_single_attempt request (target : T) w :
  requestsSent (trace (snd (callAPI c request target w)))
  = (requestsSent (trace w)
       ++ if requestGoesOut c request then [request] else [])%list
  /\ pending (snd (callAPI c request target w))
     = if requestGoesOut c request then tl (pending w) else pending w.
Proof.
  gateway_paths c request resp target;
    try (destruct (pending w) as [| [resp | eresp] rest]; cbn);
    answer_paths resp target; cbn; trace_facts; split; reflexivity.
Qed.

(** A call that returns without an error has slept the configured
    duration once and closed the body once. *)
Theorem callAPI_ok_slept_and_closed request (target v : T) w w' :
  callAPI c request target w = (Returned (v, None), w') ->
  sleeps (trace w') = (sleeps (trace w) ++ [sleepBetweenCalls c])%list
  /\ closes (trace w') = S (closes (trace w)).
Proof.
  gateway_paths c request resp target;
    (destruct (pending w) as [| [resp | eresp] rest]; cbn;
     [intros H; inversion H | | intros H; inversion H]);
    answer_paths resp target; cbn; intros H; inversion H; subst; cbn;
    trace_facts; split; try reflexivity; lia.
Qed.
End GatewaySummary.

(** ** The poller *)

Section PollerFacts.
Context {HU : HTTPUtil} {NU : NetURL}.
Context {JChain : JSONTarget ChainInfoResponse}.
Context {JHashes : JSONTarget BlockHashesResponse}.
Context {JEvents : JSONTarget BlockEventsResponse}.
Variable c : AlephiumClient.

(** The height and the block hashes are always returned, never a panic,
    and on every failure the value is the zero value, not what the decoder
    may have left in the response: height 0, no hash.  Block events that
    come with an error are empty in the same way. *)
Theorem poller_drops_values_on_error w :
  (exists r w', GetCurrentHeight c w = (Returned r, w')
                /\ (snd r <> None -> fst r = 0))
  /\ (forall height, exists r w',
        GetBlockHashes c height w = (Returned r, w')
        /\ (snd r <> None -> fst r = []))
  /\ (forall blockHash evs e w',
        GetBlockEvents c blockHash w = (Returned (evs, Some e), w') ->
        evs = []).
Proof.
  repeat split.
  - unfold GetCurrentHeight.
    destruct (callAPI_returns c (http_NewRequest "GET" chainInfoURL NoBody)
                (mkChainInfoResponse 0) w) as ([response err] & w1 & H1).
    erewrite bind_returned by exact H1. cbn beta iota.
    destruct err; cbn; eexists _, _; (split; [reflexivity |]); cbn;
      [reflexivity | congruence].
  - intros height. unfold GetBlockHashes.
    destruct (callAPI_returns c
                (http_NewRequest "GET" (blockHashesURL height) NoBody)
                (mkBlockHashesResponse []) w) as ([response err] & w1 & H1).
    erewrite bind_returned by exact H1. cbn beta iota.
    destruct err; cbn; eexists _, _; (split; [reflexivity |]); cbn;
      [reflexivity | congruence].
  - intros blockHash evs e w' H. unfold GetBlockEvents in H.
    apply bind_inv in H. destruct H as ([response err] & w1 & _ & H).
    destruct err.
    + apply bind_inv in H. destruct H as (? & ? & _ & H).
      unfold ret in H. inversion H. reflexivity.
    + unfold ret in H. discriminate H.
Qed.

Variable TransactionDetailsResponse : Type.
Variable noTransactionDetails : TransactionDetailsResponse.
Context {JTxn : JSONTarget TransactionDetailsResponse}.
Variable ContractStateResponse : Type.
Variable noContractState : ContractStateResponse.
Context {JState : JSONTarget ContractStateResponse}.

(** A block hash, transaction hash or address that makes the URL
    unparsable leaves the client with a nil request, the error of
    [http.NewRequest] being dropped: the call panics on the nil pointer
    before anything is sent, logged or slept. *)
Theorem unparsable_URL_panics w :
  (forall blockHash,
      urlParses (blockEventsURL blockHash) = false ->
      GetBlockEvents c blockHash w
      = (Panicked "invalid memory address or nil pointer dereference", w))
  /\ (forall txnHash,
      urlParses (transactionURL txnHash) = false ->
      GetTransactionDetails TransactionDetailsResponse noTransactionDetails
        c txnHash w
      = (Panicked "invalid memory address or nil pointer dereference", w))
  /\ (forall address,
      urlParses (contractStateURL address) = false ->
      GetContractState ContractStateResponse noContractState c address w
      = (Panicked "invalid memory address or nil pointer dereference", w)).
Proof.
  repeat split; intros x Hu.
  - unfold GetBlockEvents, http_NewRequestParsed. rewrite Hu. reflexivity.
  - unfold GetTransactionDetails, http_NewRequestParsed. rewrite Hu. reflexivity.
  - unfold GetContractState, http_NewRequestParsed. rewrite Hu. reflexivity.
Qed.

(** Unlike the poller, the transaction and contract-state calls hand back
    with an error whatever the decoder had put into the response before
    it failed; and they return without an error only after one pause. *)
Theorem GetTransactionDetails_result txnHash w details err w' :
  GetTransactionDetails TransactionDetailsResponse noTransactionDetails
    c txnHash w = (Returned (details, err), w') ->
  exists w1,
    callAPI c (mkRequest "GET" (transactionURL txnHash) NoBody)
      noTransactionDetails w = (Returned (details, err), w1)
    /\ urlParses (transactionURL txnHash) = true
    /\ (err = None ->
        sleeps (trace w')
        = (sleeps (trace w) ++ [sleepBetweenCalls c])%list).
Proof.
  unfold GetTransactionDetails, http_NewRequestParsed. intros H.
  destruct (urlParses (transactionURL txnHash)); [| discriminate H].
  unfold callAPIPtr in H.
  apply bind_inv in H. destruct H as ([response cerr] & w1 & Hcall & H).
  destruct cerr as [e |].
  - apply bind_inv in H. destruct H as (? & ? & _ & H).
    unfold ret in H. inversion H; subst.
    exists w1. repeat split; [exact Hcall | discriminate].
  - unfold ret in H. inversion H; subst.
    exists w'. repeat split; [exact Hcall |].
    intros _. exact (proj1 (callAPI_ok_effects c _ _ _ _ _ Hcall)).
Qed.
End PollerFacts.

(** ** The further properties on concrete exchanges *)

Section ScenarioRuns.
Import Scenarios.

Lemma callAPI_transport_error_witness :
  pending (Fixture.world [Err (urlError "connection refused")])
  = [Err (urlError "connection refused")]
  /\ requestGoesOut quietClient (pageRequest 100 "1") = true
  /\ fst (callAPI quietClient (pageRequest 100 "1") noSubContracts
            (Fixture.world [Err (urlError "connection refused")]))
     = Returned (noSubContracts, Some (urlError "connection refused")).
Proof.
  split; [reflexivity |]. split; [reflexivity |].
  exact (proj1 (callAPI_transport_error quietClient (pageRequest 100 "1") noSubContracts
                  (Fixture.world [Err (urlError "connection refused")])
                  (urlError "connection refused") [] eq_refl eq_refl)).
Defined.

Lemma callAPI_response_dump_failure_witness :
  Debug debugClient = true
  /\ isOk (DumpRequestOut (pageRequest 100 "1")) = true
  /\ dumpResponseResult (uncloseable 200 "page-AB")
     = Err (closeError "connection reset")
  /\ fst (callAPI debugClient (pageRequest 100 "1") noSubContracts
            (Fixture.world [Ok (uncloseable 200 "page-AB")]))
     = Returned (noSubContracts, Some (closeError "connection reset"))
  /\ closes (trace (snd (callAPI debugClient (pageRequest 100 "1")
                           noSubContracts
                           (Fixture.world [Ok (uncloseable 200 "page-AB")]))))
     = 1%nat.
Proof.
  split; [reflexivity |]. split; [reflexivity |]. split; [reflexivity |].
  pose proof (callAPI_response_dump_failure debugClient (pageRequest 100 "1")
                noSubContracts
                (Fixture.world [Ok (uncloseable 200 "page-AB")])
                (uncloseable 200 "page-AB") [] (closeError "connection reset")
                eq_refl eq_refl eq_refl eq_refl) as (Hres & _ & _ & Hclosed).
  split; [exact Hres | exact Hclosed].
Defined.

Lemma callAPI_closes_body_witness :
  (pending (Fixture.world [Fixture.answer 500 "busy"])
   = [Fixture.answer 500 "busy"]
   /\ requestGoesOut quietClient (pageRequest 100 "1") = true
   /\ closes (trace (snd (callAPI quietClient (pageRequest 100 "1")
                            noSubContracts
                            (Fixture.world [Fixture.answer 500 "busy"]))))
      = 0%nat)
  /\ (requestGoesOut debugClient (pageRequest 100 "1") = true
      /\ closes (trace (snd (callAPI debugClient (pageRequest 100 "1")
                               noSubContracts
                               (Fixture.world [Fixture.answer 500 "busy"]))))
         = 1%nat).
Proof.
  split; (split; [reflexivity |]); [split; [reflexivity |] |].
  - exact (callAPI_closes_body quietClient (pageRequest 100 "1") noSubContracts
             (Fixture.world [Fixture.answer 500 "busy"])
             (mkResponse 500 "busy" (Ok "busy") None) [] eq_refl eq_refl).
  - exact (callAPI_closes_body debugClient (pageRequest 100 "1") noSubContracts
             (Fixture.world [Fixture.answer 500 "busy"])
             (mkResponse 500 "busy" (Ok "busy") None) [] eq_refl eq_refl).
Defined.

(** An answer whose body cannot be read to its end: with diagnostics on
    the dump fails on the read and the body stays open; with diagnostics
    off the error of the read is dropped and the bytes read are decoded. *)
Example callAPI_unreadable_body :
  callAPI debugClient (pageRequest 100 "1") noSubContracts
    (Fixture.world [Ok (unreadable 200 "page-AB")])
  = (Returned (noSubContracts, Some (urlError "unexpected EOF")),
     mkWorld [] [Printed "GET https://backend.mainnet.alephium.org/contracts/vyrkJHG49TXss6pGAz2dVxq5o7mBXNNXAV18nAeqVT1R/sub-contracts?limit=100&page=1";
                 Sent (pageRequest 100 "1")])
  /\ callAPI quietClient (pageRequest 100 "1") noSubContracts
       (Fixture.world [Ok (unreadable 200 "page-AB")])
     = (Returned (mkSubContractResponse ["A"; "B"], None),
        mkWorld [] [Sent (pageRequest 100 "1"); Slept 300; Closed]).
Proof. split; vm_compute; reflexivity. Qed.

Lemma callAPI_success_path_witness :
  Debug quietClient = false
  /\ json_Unmarshal (Body (uncloseable 200 "page-AB")) noSubContracts
     = (mkSubContractResponse ["A"; "B"], None)
  /\ callAPI quietClient (pageRequest 100 "1") noSubContracts
       (Fixture.world [Ok (uncloseable 200 "page-AB")])
     = (Returned (mkSubContractResponse ["A"; "B"],
                  Some (closeError "connection reset")),
        mkWorld [] [Sent (pageRequest 100 "1"); Slept 300; Closed]).
Proof.
  split; [reflexivity |]. split; [reflexivity |].
  exact (callAPI_success_path quietClient (pageRequest 100 "1") noSubContracts
           (mkSubContractResponse ["A"; "B"])
           (Fixture.world [Ok (uncloseable 200 "page-AB")])
           (uncloseable 200 "page-AB") [] eq_refl eq_refl eq_refl eq_refl).
Defined.

Lemma callAPI_ok_slept_and_closed_witness :
  callAPI quietClient (pageRequest 100 "1") noSubContracts
    (Fixture.world [Fixture.answer 200 "page-AB"])
  = (Returned (mkSubContractResponse ["A"; "B"], None),
     mkWorld [] [Sent (pageRequest 100 "1"); Slept 300; Closed])
  /\ sleeps [Sent (pageRequest 100 "1"); Slept 300; Closed] = [300]
  /\ closes [Sent (pageRequest 100 "1"); Slept 300; Closed] = 1%nat.
Proof.
  assert (H : callAPI quietClient (pageRequest 100 "1") noSubContracts
                (Fixture.world [Fixture.answer 200 "page-AB"])
              = (Returned (mkSubContractResponse ["A"; "B"], None),
                 mkWorld [] [Sent (pageRequest 100 "1"); Slept 300; Closed]))
    by (vm_compute; reflexivity).
  split; [exact H |].
  exact (callAPI_ok_slept_and_closed quietClient (pageRequest 100 "1") noSubContracts _ _ _ H).
Defined.

Lemma callAPI_debug_transparent_witness :
  isOk (DumpRequestOut (pageRequest 100 "1")) = true
  /\ isOk (dumpResponseResult (mkResponse 500 "busy" (Ok "busy") None)) = true
  /\ fst (callAPI (withDebug true quietClient) (pageRequest 100 "1")
            noSubContracts (Fixture.world [Fixture.answer 500 "busy"]))
     = fst (callAPI (withDebug false quietClient) (pageRequest 100 "1")
              noSubContracts (Fixture.world [Fixture.answer 500 "busy"]))
  /\ withoutDumps
       (trace (snd (callAPI (withDebug true quietClient) (pageRequest 100 "1")
                      noSubContracts
                      (Fixture.world [Fixture.answer 500 "busy"]))))
     = [Sent (pageRequest 100 "1"); LoggedError "failed to call api"].
Proof.
  split; [reflexivity |]. split; [reflexivity |].
  pose proof (callAPI_debug_transparent quietClient (pageRequest 100 "1")
                noSubContracts (Fixture.world [Fixture.answer 500 "busy"])
                (mkResponse 500 "busy" (Ok "busy") None) []
                eq_refl eq_refl eq_refl) as (Hres & _ & _ & Htrace).
  split; [exact Hres |]. rewrite Htrace. reflexivity.
Defined.

Lemma GetSwapPairsContractAddresses_requests_witness :
  Debug quietClient = false
  /\ requestsSent
       (trace (snd (GetSwapPairsContractAddresses quietClient 100
                      (Fixture.world [Fixture.answer 500 "busy";
                                      Fixture.answer 200 "page-C"]))))
     = [pageRequest 100 "1"].
Proof.
  split; [reflexivity |].
  destruct (GetSwapPairsContractAddresses_requests quietClient 100
              (Fixture.world [Fixture.answer 500 "busy";
                              Fixture.answer 200 "page-C"]) eq_refl)
    as (r1 & w1 & H1 & Hreq).
  rewrite Hreq.
  assert (Hr : r1 = (noSubContracts,
                     Some (errors_New "not 200 http response code from api"))).
  { vm_compute in H1. inversion H1. reflexivity. }
  rewrite Hr. reflexivity.
Defined.

Lemma GetSwapPairsContractAddresses_ok_pauses_witness :
  GetSwapPairsContractAddresses quietClient 100
    (Fixture.world [Fixture.answer 200 "page-AB"; Fixture.answer 200 "page-C"])
  = (Returned (mkSubContractResponse ["A"; "B"; "C"], None),
     mkWorld [] [Sent (pageRequest 100 "1"); Slept 300; Closed;
                 Sent (pageRequest 100 "2"); Slept 300; Closed])
  /\ sleeps [Sent (pageRequest 100 "1"); Slept 300; Closed;
             Sent (pageRequest 100 "2"); Slept 300; Closed]
     = [300; 300].
Proof.
  assert (H : GetSwapPairsContractAddresses quietClient 100
                (Fixture.world [Fixture.answer 200 "page-AB";
                                Fixture.answer 200 "page-C"])
              = (Returned (mkSubContractResponse ["A"; "B"; "C"], None),
                 mkWorld [] [Sent (pageRequest 100 "1"); Slept 300; Closed;
                             Sent (pageRequest 100 "2"); Slept 300; Closed]))
    by (vm_compute; reflexivity).
  split; [exact H |].
  exact (proj1 (GetSwapPairsContractAddresses_ok_pauses quietClient 100 _ _ _ H)).
Defined.
End ScenarioRuns.

Section ScenarioRunsTokens.
Import Scenarios.

(** C7 fails for a success payload with a single identifier that does not
    convert: the conversion error is reported, the second index is never
    evaluated and nothing panics. *)
Lemma GetTokenPairAddresses_single_bad_return_reported :
  callAPI quietClient (tokenPairRequest 0 "pool") noCallResult
    (Fixture.world [Fixture.answer 200 "bad-single"])
  = (Returned (Fixture.okRow ["zz"], None),
     mkWorld [] [Sent (tokenPairRequest 0 "pool"); Slept 300; Closed])
  /\ length (Returns (Fixture.okRow ["zz"])) = 1%nat
  /\ GetTokenPairAddresses quietClient "pool"
       (Fixture.world [Fixture.answer 200 "bad-single"])
     = (Returned ([], Some (codecError "invalid hex byte")),
        mkWorld [] [Sent (tokenPairRequest 0 "pool"); Slept 300; Closed;
                    LoggedError "failed to calculate address1"])
  /\ fst (GetTokenPairAddresses quietClient "pool"
            (Fixture.world [Fixture.answer 200 "bad-single"]))
     <> Panicked "index out of range".
Proof.
  repeat split; try (vm_compute; reflexivity).
  vm_compute. discriminate.
Qed.

Lemma GetTokenPairAddresses_on_chain_error_witness :
  groupOfAddress "pool" = Ok 0
  /\ callAPI quietClient (tokenPairRequest 0 "pool") noCallResult
       (Fixture.world [Fixture.answer 200 "failed"])
     = (Returned (Fixture.failedRow "VM execution error", None),
        mkWorld [] [Sent (tokenPairRequest 0 "pool"); Slept 300; Closed])
  /\ fst (GetTokenPairAddresses quietClient "pool"
            (Fixture.world [Fixture.answer 200 "failed"]))
     = Returned ([], Some (errors_New "VM execution error")).
Proof.
  assert (Hg : groupOfAddress "pool" = Ok 0) by reflexivity.
  assert (Hcall : callAPI quietClient (tokenPairRequest 0 "pool") noCallResult
                    (Fixture.world [Fixture.answer 200 "failed"])
                  = (Returned (Fixture.failedRow "VM execution error", None),
                     mkWorld [] [Sent (tokenPairRequest 0 "pool"); Slept 300;
                                 Closed]))
    by (vm_compute; reflexivity).
  split; [exact Hg |]. split; [exact Hcall |].
  rewrite (GetTokenPairAddresses_on_chain_error quietClient "pool" 0 _ _ _
             "VM execution error" Hg Hcall eq_refl).
  reflexivity.
Defined.

Lemma GetTokenPairAddresses_extra_returns_witness :
  groupOfAddress "pool" = Ok 0
  /\ callAPI quietClient (tokenPairRequest 0 "pool") noCallResult
       (Fixture.world [Fixture.answer 200 "triple"])
     = (Returned (Fixture.okRow ["aa"; "bb"; "cc"], None),
        mkWorld [] [Sent (tokenPairRequest 0 "pool"); Slept 300; Closed])
  /\ fst (GetTokenPairAddresses quietClient "pool"
            (Fixture.world [Fixture.answer 200 "triple"]))
     = Returned (["addr:aa"; "addr:bb"], None).
Proof.
  assert (Hg : groupOfAddress "pool" = Ok 0) by reflexivity.
  assert (Hcall : callAPI quietClient (tokenPairRequest 0 "pool") noCallResult
                    (Fixture.world [Fixture.answer 200 "triple"])
                  = (Returned (Fixture.okRow ["aa"; "bb"; "cc"], None),
                     mkWorld [] [Sent (tokenPairRequest 0 "pool"); Slept 300;
                                 Closed]))
    by (vm_compute; reflexivity).
  split; [exact Hg |]. split; [exact Hcall |].
  rewrite (GetTokenPairAddresses_extra_returns quietClient "pool" 0 _ _ _
             (Fixture.field "aa") (Fixture.field "bb") [Fixture.field "cc"]
             Hg Hcall eq_refl eq_refl).
  reflexivity.
Defined.

Lemma GetTokenPairAddresses_result_shape_witness :
  GetTokenPairAddresses quietClient "pool"
    (Fixture.world [Fixture.answer 200 "pair"])
  = (Returned (["addr:aa"; "addr:bb"], None),
     mkWorld [] [Sent (tokenPairRequest 0 "pool"); Slept 300; Closed])
  /\ length ["addr:aa"; "addr:bb"] = 2%nat.
Proof.
  assert (H : GetTokenPairAddresses quietClient "pool"
                (Fixture.world [Fixture.answer 200 "pair"])
              = (Returned (["addr:aa"; "addr:bb"], None),
                 mkWorld [] [Sent (tokenPairRequest 0 "pool"); Slept 300; Closed]))
    by (vm_compute; reflexivity).
  split; [exact H |].
  exact (GetTokenPairAddresses_result_shape quietClient "pool" _ _ _ _ H).
Defined.

Lemma GetTokenPairAddresses_requests_witness :
  Debug quietClient = false
  /\ requestsSent
       (trace (snd (GetTokenPairAddresses quietClient "pool"
                      (Fixture.world [Fixture.answer 500 "busy";
                                      Fixture.answer 200 "pair"]))))
     = [tokenPairRequest 0 "pool"].
Proof.
  split; [reflexivity |].
  exact (GetTokenPairAddresses_requests quietClient "pool"
           (Fixture.world [Fixture.answer 500 "busy"; Fixture.answer 200 "pair"])
           eq_refl).
Defined.

Lemma GetTokenInfoForContractDecoded_ok_needs_all_rows_witness :
  callAPI quietClient (multicallRequest 0 Fixture.token) noMulticall
    (Fixture.world [Fixture.answer 200 "ayin"])
  = (Returned (mkMulticallContractResponse
                 [Fixture.okRow ["4159494e"];
                  Fixture.okRow ["4179696e20546f6b656e"];
                  Fixture.okRow ["18"]], None),
     mkWorld [] [Sent (multicallRequest 0 Fixture.token); Slept 300; Closed])
  /\ GetTokenInfoForContractDecoded quietClient Fixture.token "Alephium"
       (Fixture.world [Fixture.answer 200 "ayin"])
     = (Returned (Some (mkAsset Fixture.token "AYIN" "Ayin Token" 18 "Alephium"),
                  None),
        mkWorld [] [Sent (multicallRequest 0 Fixture.token); Slept 300; Closed])
  /\ (3 <= 3)%nat.
Proof.
  assert (Hn : String.eqb Fixture.token (Address ALPHNativeToken) = false)
    by reflexivity.
  assert (Hg : groupOfAddress Fixture.token = Ok 0) by reflexivity.
  assert (Hcall : callAPI quietClient (multicallRequest 0 Fixture.token)
                    noMulticall (Fixture.world [Fixture.answer 200 "ayin"])
                  = (Returned (mkMulticallContractResponse
                                 [Fixture.okRow ["4159494e"];
                                  Fixture.okRow ["4179696e20546f6b656e"];
                                  Fixture.okRow ["18"]], None),
                     mkWorld [] [Sent (multicallRequest 0 Fixture.token);
                                 Slept 300; Closed]))
    by (vm_compute; reflexivity).
  assert (Hrun : GetTokenInfoForContractDecoded quietClient Fixture.token
                   "Alephium" (Fixture.world [Fixture.answer 200 "ayin"])
                 = (Returned (Some (mkAsset Fixture.token "AYIN" "Ayin Token" 18
                                      "Alephium"), None),
                    mkWorld [] [Sent (multicallRequest 0 Fixture.token);
                                Slept 300; Closed]))
    by (vm_compute; reflexivity).
  split; [exact Hcall |]. split; [exact Hrun |].
  exact (proj1 (GetTokenInfoForContractDecoded_ok_needs_all_rows quietClient
                  Fixture.token "Alephium" 0 _ _ _ _ _ Hn Hg Hcall Hrun)).
Defined.

Lemma GetTokenInfoForContractDecoded_error_asset_is_partial_witness :
  GetTokenInfoForContractDecoded quietClient Fixture.token "Alephium"
    (Fixture.world [Fixture.answer 200 "exponent"])
  = (Returned (Some (mkAsset "" "AYIN" "Ayin Token" 0 ""),
               Some (NumError "ParseUint" "1e18" ErrSyntax)),
     mkWorld [] [Sent (multicallRequest 0 Fixture.token); Slept 300; Closed;
                 LoggedError "failed to decode decimals"])
  /\ Address (mkAsset "" "AYIN" "Ayin Token" 0 "") = EmptyString.
Proof.
  assert (H : GetTokenInfoForContractDecoded quietClient Fixture.token
                "Alephium" (Fixture.world [Fixture.answer 200 "exponent"])
              = (Returned (Some (mkAsset "" "AYIN" "Ayin Token" 0 ""),
                           Some (NumError "ParseUint" "1e18" ErrSyntax)),
                 mkWorld [] [Sent (multicallRequest 0 Fixture.token); Slept 300;
                             Closed; LoggedError "failed to decode decimals"]))
    by (vm_compute; reflexivity).
  split; [exact H |].
  exact (proj1 (GetTokenInfoForContractDecoded_error_asset_is_partial
                  quietClient Fixture.token "Alephium" _ _ _ _ H)).
Defined.

Lemma GetTokenInfoForContractDecoded_short_answer_panics_witness :
  callAPI quietClient (multicallRequest 0 Fixture.token) noMulticall
    (Fixture.world [Fixture.answer 200 "short"])
  = (Returned (mkMulticallContractResponse
                 [Fixture.okRow ["4159494e"];
                  Fixture.okRow ["4179696e20546f6b656e"]], None),
     mkWorld [] [Sent (multicallRequest 0 Fixture.token); Slept 300; Closed])
  /\ GetTokenInfoForContractDecoded quietClient Fixture.token "Alephium"
       (Fixture.world [Fixture.answer 200 "short"])
     = (Panicked "index out of range",
        mkWorld [] [Sent (multicallRequest 0 Fixture.token); Slept 300; Closed]).
Proof.
  assert (Hn : String.eqb Fixture.token (Address ALPHNativeToken) = false)
    by reflexivity.
  assert (Hg : groupOfAddress Fixture.token = Ok 0) by reflexivity.
  assert (Hcall : callAPI quietClient (multicallRequest 0 Fixture.token)
                    noMulticall (Fixture.world [Fixture.answer 200 "short"])
                  = (Returned (mkMulticallContractResponse
                                 [Fixture.okRow ["4159494e"];
                                  Fixture.okRow ["4179696e20546f6b656e"]], None),
                     mkWorld [] [Sent (multicallRequest 0 Fixture.token);
                                 Slept 300; Closed]))
    by (vm_compute; reflexivity).
  assert (Hlen : (length [Fixture.okRow ["4159494e"];
                          Fixture.okRow ["4179696e20546f6b656e"]] < 3)%nat)
    by (cbn; lia).
  assert (Hrows : forallb rowDecodes [Fixture.okRow ["4159494e"];
                                      Fixture.okRow ["4179696e20546f6b656e"]]
                  = true) by reflexivity.
  split; [exact Hcall |].
  exact (GetTokenInfoForContractDecoded_short_answer_panics quietClient
           Fixture.token "Alephium" 0 _ _ _ Hn Hg Hcall Hlen Hrows).
Defined.

Lemma GetTokenInfoForContractDecoded_failed_row_witness :
  callAPI quietClient (multicallRequest 0 Fixture.token) noMulticall
    (Fixture.world [Fixture.answer 200 "decimals-error"])
  = (Returned (mkMulticallContractResponse
                 [Fixture.okRow ["4159494e"];
                  Fixture.okRow ["4179696e20546f6b656e"];
                  Fixture.failedRow "VM execution error"], None),
     mkWorld [] [Sent (multicallRequest 0 Fixture.token); Slept 300; Closed])
  /\ fst (GetTokenInfoForContractDecoded quietClient Fixture.token "Alephium"
            (Fixture.world [Fixture.answer 200 "decimals-error"]))
     = Returned (None, Some (errors_New "VM execution error")).
Proof.
  assert (Hn : String.eqb Fixture.token (Address ALPHNativeToken) = false)
    by reflexivity.
  assert (Hg : groupOfAddress Fixture.token = Ok 0) by reflexivity.
  assert (Hcall : callAPI quietClient (multicallRequest 0 Fixture.token)
                    noMulticall
                    (Fixture.world [Fixture.answer 200 "decimals-error"])
                  = (Returned (mkMulticallContractResponse
                                 [Fixture.okRow ["4159494e"];
                                  Fixture.okRow ["4179696e20546f6b656e"];
                                  Fixture.failedRow "VM execution error"], None),
                     mkWorld [] [Sent (multicallRequest 0 Fixture.token);
                                 Slept 300; Closed]))
    by (vm_compute; reflexivity).
  assert (Hpre : Forall (fun r => Error r = None /\ Returns r <> [])
                   [Fixture.okRow ["4159494e"];
                    Fixture.okRow ["4179696e20546f6b656e"]])
    by (repeat constructor; discriminate).
  split; [exact Hcall |].
  exact (GetTokenInfoForContractDecoded_failed_row quietClient Fixture.token
           "Alephium" 0 _ _ _
           [Fixture.okRow ["4159494e"]; Fixture.okRow ["4179696e20546f6b656e"]]
           (Fixture.failedRow "VM execution error") [] "VM execution error"
           Hn Hg Hcall eq_refl Hpre eq_refl).
Defined.

Lemma GetTokenInfoForContractDecoded_requests_witness :
  Debug quietClient = false
  /\ requestsSent
       (trace (snd (GetTokenInfoForContractDecoded quietClient Fixture.token
                      "Alephium" (Fixture.world [Fixture.answer 200 "short"]))))
     = [multicallRequest 0 Fixture.token].
Proof.
  split; [reflexivity |].
  exact (GetTokenInfoForContractDecoded_requests quietClient Fixture.token
           "Alephium" (Fixture.world [Fixture.answer 200 "short"]) eq_refl).
Defined.

Lemma decodeMulticallRequestToAssets_accepts_witness :
  DecodeHex (Value (Fixture.field "4159494e")) = Ok "AYIN"
  /\ DecodeHex (Value (Fixture.field "4179696e20546f6b656e")) = Ok "Ayin Token"
  /\ exists a err w',
       decodeMulticallRequestToAssets Fixture.token "Alephium"
         (mkOutputResult Fixture.token
            [mkOutputField "" (Fixture.field "4159494e");
             mkOutputField "" (Fixture.field "4179696e20546f6b656e");
             mkOutputField "" (Fixture.field "+18")])
         (Fixture.world [])
       = (Returned (a, err), w')
       /\ err <> None.
Proof.
  assert (H0 : DecodeHex (Value (Fixture.field "4159494e")) = Ok "AYIN")
    by reflexivity.
  assert (H1 : DecodeHex (Value (Fixture.field "4179696e20546f6b656e"))
               = Ok "Ayin Token") by reflexivity.
  split; [exact H0 |]. split; [exact H1 |].
  destruct (decodeMulticallRequestToAssets_accepts Fixture.token "Alephium"
              (mkOutputField "" (Fixture.field "4159494e"))
              (mkOutputField "" (Fixture.field "4179696e20546f6b656e"))
              (mkOutputField "" (Fixture.field "+18")) []
              "AYIN" "Ayin Token" (Fixture.world []) H0 H1)
    as (a & err & w' & Hrun & Hiff).
  exists a, err, w'. split; [exact Hrun |].
  intros Hnone. apply Hiff in Hnone. destruct Hnone as (_ & Hd & _).
  vm_compute in Hd. discriminate Hd.
Defined.
End ScenarioRunsTokens.

Section ScenarioRunsPoller.
Import Scenarios.

Lemma poller_drops_values_on_error_witness :
  GetBlockEvents quietClient "00ab" (Fixture.world [Fixture.answer 404 "gone"])
  = (Returned ([], Some (errors_New "not 200 http response code from api")),
     mkWorld []
       [Sent (mkRequest "GET" (blockEventsURL "00ab") NoBody);
        LoggedError "failed to call api"; LoggedError "failed to callApi"])
  /\ (exists r w',
        GetCurrentHeight quietClient (Fixture.world [Fixture.answer 200 "height"])
        = (Returned r, w') /\ r = (4177, None)).
Proof.
  assert (H : GetBlockEvents quietClient "00ab"
                (Fixture.world [Fixture.answer 404 "gone"])
              = (Returned ([], Some (errors_New
                                       "not 200 http response code from api")),
                 mkWorld []
                   [Sent (mkRequest "GET" (blockEventsURL "00ab") NoBody);
                    LoggedError "failed to call api";
                    LoggedError "failed to callApi"]))
    by (vm_compute; reflexivity).
  split; [exact H |].
  destruct (proj1 (poller_drops_values_on_error quietClient
                     (Fixture.world [Fixture.answer 200 "height"])))
    as (r & w' & Hrun & _).
  exists r, w'. split; [exact Hrun |].
  vm_compute in Hrun. inversion Hrun. reflexivity.
Defined.

Lemma unparsable_URL_panics_witness :
  urlParses (blockEventsURL lineFeed) = false
  /\ GetBlockEvents quietClient lineFeed
       (Fixture.world [Fixture.answer 200 "events"])
     = (Panicked "invalid memory address or nil pointer dereference",
        Fixture.world [Fixture.answer 200 "events"]).
Proof.
  assert (Hu : urlParses (blockEventsURL lineFeed) = false)
    by (vm_compute; reflexivity).
  split; [exact Hu |].
  exact (proj1 (unparsable_URL_panics quietClient (string * Z) ("", 0)
                  (string * Z) ("", 0)
                  (Fixture.world [Fixture.answer 200 "events"]))
           lineFeed Hu).
Defined.

Lemma GetTransactionDetails_result_witness :
  GetTransactionDetails (string * Z) ("", 0) quietClient "b974"
    (Fixture.world [Fixture.answer 200 "mismatch"])
  = (Returned (("b974", 0),
               Some (jsonError "cannot unmarshal string into Go value of type int")),
     mkWorld [] [Sent (mkRequest "GET" (transactionURL "b974") NoBody);
                 LoggedError "failed to callApi"])
  /\ exists w1,
       callAPI quietClient (mkRequest "GET" (transactionURL "b974") NoBody)
         ("", 0) (Fixture.world [Fixture.answer 200 "mismatch"])
       = (Returned (("b974", 0),
                    Some (jsonError
                            "cannot unmarshal string into Go value of type int")),
          w1).
Proof.
  assert (H : GetTransactionDetails (string * Z) ("", 0) quietClient "b974"
                (Fixture.world [Fixture.answer 200 "mismatch"])
              = (Returned (("b974", 0),
                           Some (jsonError
                                   "cannot unmarshal string into Go value of type int")),
                 mkWorld []
                   [Sent (mkRequest "GET" (transactionURL "b974") NoBody);
                    LoggedError "failed to callApi"]))
    by (vm_compute; reflexivity).
  split; [exact H |].
  destruct (GetTransactionDetails_result quietClient (string * Z) ("", 0)
              "b974" _ _ _ _ H) as (w1 & Hcall & _).
  exists w1. exact Hcall.
Defined.
End ScenarioRunsPoller.
